(** * api_yamdb: authorization predicates, catalogue aggregation,
      registration and token issuance

    A shallow embedding of [users/models.py], [api/permissions.py],
    [api/serializers.py] and [api/views.py].  Python exceptions are values of
    [exn]; code that touches the database, the mailer or the random source is
    written in a state-and-exception monad whose state survives a raise, as
    under Django's default autocommit.  Classes of the source become modules
    of the same name. *)

From Stdlib Require Import ZArith List Ascii String Bool Lia QArith Qround Permutation.
From ExtLib Require Import Structures.Monad Structures.MonadExc.
Import ListNotations.
Import MonadNotation.
Local Open Scope string_scope.
Local Open Scope Z_scope.
Local Open Scope monad_scope.

(** ** Python exceptions and results *)

(** The exceptions the modelled code can raise.  [ValidationError] carries the
    [(field, code)] pairs of the serializer's error dictionary.
    [KeyboardInterrupt] stands for the [BaseException]s that are not
    [Exception]s. *)
Inductive exn : Type :=
| KeyError (key : string)
| IndexError
| AttributeError (attr : string)
| TypeError
| ValueError
| SMTPException
| DoesNotExist
| MultipleObjectsReturned
| ValidationError (errors : list (string * string))
| Http404
| NotAuthenticated
| PermissionDenied
| KeyboardInterrupt.

(** [isinstance(e, Exception)] *)
Definition is_Exception (e : exn) : bool :=
  match e with
  | KeyboardInterrupt => false
  | _ => true
  end.

Inductive result (A : Type) : Type :=
| Ok (a : A)
| Raise (e : exn).
Arguments Ok {A} a.
Arguments Raise {A} e.

#[global] Instance Monad_result : Monad result :=
  {| ret := fun _ a => Ok a;
     bind := fun _ _ c k => match c with Ok a => k a | Raise e => Raise e end |}.

#[global] Instance Exc_result : MonadExc exn result :=
  {| raise := fun _ e => Raise e;
     catch := fun _ c h => match c with Ok a => Ok a | Raise e => h e end |}.

(** A computation over a state [S]: it returns a value or raises, and in both
    cases hands back the state it reached. *)
Definition M (S A : Type) : Type := S -> result A * S.

#[global] Instance Monad_M {S} : Monad (M S) :=
  {| ret := fun _ a s => (Ok a, s);
     bind := fun _ _ c k s =>
               match c s with
               | (Ok a, s') => k a s'
               | (Raise e, s') => (Raise e, s')
               end |}.

#[global] Instance Exc_M {S} : MonadExc exn (M S) :=
  {| raise := fun _ e s => (Raise e, s);
     catch := fun _ c h s =>
                match c s with
                | (Ok a, s') => (Ok a, s')
                | (Raise e, s') => h e s'
                end |}.

Definition lift {S A} (r : result A) : M S A := fun s => (r, s).
Definition gets {S A} (f : S -> A) : M S A := fun s => (Ok (f s), s).
Definition modify {S} (f : S -> S) : M S unit := fun s => (Ok tt, f s).

(** [try: body  except Exception: handler]: only instances of [Exception]
    reach the handler, anything else keeps propagating. *)
Definition try_except_Exception {S A} (body : M S A) (handler : M S A) : M S A :=
  catch body (fun e => if is_Exception e then handler else raise e).

(** [if test: a  else: b] with a test that may itself raise. *)
Definition ifM {m : Type -> Type} `{Monad m} {A : Type} (test : m bool) (a b : m A)
  : m A :=
  bind test (fun x : bool => if x then a else b).

(** [for x in xs: body x] *)
Fixpoint for_each {S A} (xs : list A) (body : A -> M S unit) : M S unit :=
  match xs with
  | [] => ret tt
  | x :: rest => body x ;; for_each rest body
  end.

(** ** users/models.py *)

Module ROLES.
Inductive t : Type := user | moderator | admin.

Definition name (r : t) : string :=
  match r with
  | user => "user"
  | moderator => "moderator"
  | admin => "admin"
  end.
End ROLES.

Module User.
(** [id] and [is_superuser] are inherited from [AbstractUser]. *)
Record t : Type := mk {
  id : Z;
  username : string;
  email : string;
  bio : string;
  role : string;
  confirmation_code : string;
  is_superuser : bool
}.
End User.

(** [request.user]: a [User] row, or Django's [AnonymousUser]. *)
Inductive RequestUser : Type :=
| AnonymousUser
| Authenticated (u : User.t).

Definition is_anonymous (c : RequestUser) : bool :=
  match c with AnonymousUser => true | Authenticated _ => false end.

Definition is_authenticated (c : RequestUser) : bool :=
  match c with AnonymousUser => false | Authenticated _ => true end.

(** [AnonymousUser.is_superuser] is the class attribute [False]. *)
Definition is_superuser (c : RequestUser) : bool :=
  match c with AnonymousUser => false | Authenticated u => User.is_superuser u end.

(** [AnonymousUser] has no attribute [role]. *)
Definition role (c : RequestUser) : result string :=
  match c with
  | AnonymousUser => Raise (AttributeError "role")
  | Authenticated u => Ok (User.role u)
  end.

(** [author == request.user] with the author given by primary key: model
    instances are equal when their keys are, and no row equals
    [AnonymousUser]. *)
Definition Model_eq (author_pk : Z) (c : RequestUser) : bool :=
  match c with
  | AnonymousUser => false
  | Authenticated u => author_pk =? User.id u
  end.

(** ** rest_framework.permissions *)

Record Request : Type := {
  method : string;
  user : RequestUser
}.

Definition SAFE_METHODS : list string := ["GET"; "HEAD"; "OPTIONS"].

Definition in_strings (s : string) (l : list string) : bool :=
  existsb (String.eqb s) l.

(** A permission class over target objects of type [O].  No predicate of the
    project reads its [view] argument, so it is left out. *)
Record Permission (O : Type) : Type := {
  has_permission : Request -> result bool;
  has_object_permission : Request -> O -> result bool
}.
Arguments has_permission {O} _ _.
Arguments has_object_permission {O} _ _ _.

(** [BasePermission]: both checks default to [True]. *)
Definition BasePermission {O} : Permission O :=
  {| has_permission := fun _ => Ok true;
     has_object_permission := fun _ _ => Ok true |}.

Definition IsAuthenticated {O} : Permission O :=
  {| has_permission := fun request => Ok (is_authenticated (user request));
     has_object_permission := has_object_permission BasePermission |}.

(** [a and b], [a or b]: the right operand runs only when the left one does
    not decide. *)
Definition py_and (a b : result bool) : result bool :=
  ifM a b (ret false).
Definition py_or (a b : result bool) : result bool :=
  ifM a (ret true) b.

Definition AND {O} (op1 op2 : Permission O) : Permission O :=
  {| has_permission := fun request =>
       py_and (has_permission op1 request) (has_permission op2 request);
     has_object_permission := fun request obj =>
       py_and (has_object_permission op1 request obj)
              (has_object_permission op2 request obj) |}.

(** The object-level check of [OR] differs between releases of the
    framework: it is either the disjunction of the two object checks, or each
    object check guarded by its own list-level check. *)
Inductive OrObjectRule : Type := OrEither | OrGuarded.

Definition OR {O} (rule : OrObjectRule) (op1 op2 : Permission O) : Permission O :=
  {| has_permission := fun request =>
       py_or (has_permission op1 request) (has_permission op2 request);
     has_object_permission := fun request obj =>
       match rule with
       | OrEither =>
           py_or (has_object_permission op1 request obj)
                 (has_object_permission op2 request obj)
       | OrGuarded =>
           py_or (py_and (has_permission op1 request)
                         (has_object_permission op1 request obj))
                 (py_and (has_permission op2 request)
                         (has_object_permission op2 request obj))
       end |}.

(** [APIView.permission_denied] *)
Definition permission_denied {A} (request : Request) : result A :=
  if is_authenticated (user request) then Raise PermissionDenied
  else Raise NotAuthenticated.

Fixpoint check_permissions {O} (perms : list (Permission O)) (request : Request)
  : result unit :=
  match perms with
  | [] => ret tt
  | p :: rest =>
      ifM (has_permission p request)
          (check_permissions rest request)
          (permission_denied request)
  end.

Fixpoint check_object_permissions {O} (perms : list (Permission O))
    (request : Request) (obj : O) : result unit :=
  match perms with
  | [] => ret tt
  | p :: rest =>
      ifM (has_object_permission p request obj)
          (check_object_permissions rest request obj)
          (permission_denied request)
  end.

(** A detail route first runs the list-level checks and then, once the object
    is fetched, the object-level ones. *)
Definition authorize {O} (perms : list (Permission O)) (request : Request) (obj : O)
  : result unit :=
  check_permissions perms request ;; check_object_permissions perms request obj.

(** The status the framework's exception handler answers with; anything it
    does not know becomes a server error. *)
Definition status_of_exn (e : exn) : Z :=
  match e with
  | ValidationError _ => 400
  | NotAuthenticated => 401
  | PermissionDenied => 403
  | Http404 => 404
  | _ => 500
  end.

(** ** api/permissions.py *)

(** Objects that carry an [author] foreign key. *)
Class Authored (O : Type) : Type := author_id : O -> Z.

Definition IsReadOnly {O} : Permission O :=
  {| has_permission := fun request => Ok (in_strings (method request) SAFE_METHODS);
     has_object_permission := has_object_permission BasePermission |}.

Definition role_is (r : ROLES.t) (request : Request) : result bool :=
  if is_anonymous (user request) then ret false
  else x <- role (user request) ;; ret (x =? ROLES.name r)%string.

Definition IsAdmin {O} : Permission O :=
  {| has_permission := fun request => role_is ROLES.admin request;
     has_object_permission := fun request _ => role_is ROLES.admin request |}.

Definition IsSuperuser {O} : Permission O :=
  {| has_permission := fun request => Ok (is_superuser (user request));
     has_object_permission := fun request _ => Ok (is_superuser (user request)) |}.

Definition IsModerator {O} : Permission O :=
  {| has_permission := fun request => role_is ROLES.moderator request;
     has_object_permission := fun request _ => role_is ROLES.moderator request |}.

(** [IsAuthor] overrides the object check only; the list-level check is the
    one of [BasePermission]. *)
Definition IsAuthor {O} `{Authored O} : Permission O :=
  {| has_permission := has_permission (@BasePermission O);
     has_object_permission := fun request obj =>
       Ok (Model_eq (author_id obj) (user request)) |}.

(** ** reviews/models.py *)

(** Modelled from the spec: [reviews/models.py] (the models [Category],
    [Genre], [Title], [GenreTitle], [Review] and [Comment]) is not among the
    sources; the rows below carry the fields the data model lists, with
    foreign keys stored as the key of the row they point to. *)
Module Category.
Record t : Type := mk { id : Z; name : string; slug : string }.
End Category.

Module Genre.
Record t : Type := mk { id : Z; name : string; slug : string }.
End Genre.

Module Title.
Record t : Type := mk {
  id : Z;
  name : string;
  year : Z;
  description : string;
  category_id : option Z
}.
End Title.

Module GenreTitle.
Record t : Type := mk { genre_id : Z; title_id : Z }.
End GenreTitle.

Module Review.
Record t : Type := mk {
  id : Z;
  text : string;
  author_id : Z;
  score : Z;
  pub_date : Z;
  title_id : Z
}.
End Review.

Module Comment.
Record t : Type := mk {
  id : Z;
  text : string;
  author_id : Z;
  pub_date : Z;
  review_id : Z
}.
End Comment.

#[global] Instance Authored_Review : Authored Review.t := Review.author_id.
#[global] Instance Authored_Comment : Authored Comment.t := Comment.author_id.

(** ** The world a request runs in *)

(** A message handed to [send_mail]. *)
Record Email : Type := {
  subject : string;
  message : string;
  from_email : string;
  recipient_list : list string
}.

(** The database tables, the mail transport (the messages it accepted and
    whether it is reachable), the random source behind [uuid.uuid4] with the
    number of draws made so far, the clock, and the order in which the
    database hands out the rows of a query that names none (no view of the
    project sets an ordering). *)
Record World : Type := mkWorld {
  db_users : list User.t;
  db_categories : list Category.t;
  db_genres : list Genre.t;
  db_titles : list Title.t;
  db_genre_titles : list GenreTitle.t;
  db_reviews : list Review.t;
  outbox : list Email;
  smtp_up : bool;
  random : nat -> string;
  draws : nat;
  now : Z;
  row_order : forall A : Type, list A -> list A
}.

Definition set_users (f : list User.t -> list User.t) (w : World) : World :=
  mkWorld (f (db_users w)) (db_categories w) (db_genres w) (db_titles w)
          (db_genre_titles w) (db_reviews w) (outbox w) (smtp_up w) (random w)
          (draws w) (now w) (row_order w).

Definition set_titles (f : list Title.t -> list Title.t) (w : World) : World :=
  mkWorld (db_users w) (db_categories w) (db_genres w) (f (db_titles w))
          (db_genre_titles w) (db_reviews w) (outbox w) (smtp_up w) (random w)
          (draws w) (now w) (row_order w).

Definition set_genre_titles (f : list GenreTitle.t -> list GenreTitle.t) (w : World)
  : World :=
  mkWorld (db_users w) (db_categories w) (db_genres w) (db_titles w)
          (f (db_genre_titles w)) (db_reviews w) (outbox w) (smtp_up w)
          (random w) (draws w) (now w) (row_order w).

Definition set_reviews (f : list Review.t -> list Review.t) (w : World) : World :=
  mkWorld (db_users w) (db_categories w) (db_genres w) (db_titles w)
          (db_genre_titles w) (f (db_reviews w)) (outbox w) (smtp_up w)
          (random w) (draws w) (now w) (row_order w).

Definition set_outbox (f : list Email -> list Email) (w : World) : World :=
  mkWorld (db_users w) (db_categories w) (db_genres w) (db_titles w)
          (db_genre_titles w) (db_reviews w) (f (outbox w)) (smtp_up w)
          (random w) (draws w) (now w) (row_order w).

Definition set_draws (f : nat -> nat) (w : World) : World :=
  mkWorld (db_users w) (db_categories w) (db_genres w) (db_titles w)
          (db_genre_titles w) (db_reviews w) (outbox w) (smtp_up w) (random w)
          (f (draws w)) (now w) (row_order w).

Definition set_smtp_up (b : bool) (w : World) : World :=
  mkWorld (db_users w) (db_categories w) (db_genres w) (db_titles w)
          (db_genre_titles w) (db_reviews w) (outbox w) b (random w) (draws w)
          (now w) (row_order w).

(** The key the database gives the next inserted row. *)
Definition next_pk (pks : list Z) : Z := 1 + fold_right Z.max 0 pks.

(** [queryset[0]] *)
Definition first_row {A} (rows : list A) : result A :=
  match rows with
  | [] => Raise IndexError
  | r :: _ => Ok r
  end.

(** [queryset.get()]: exactly one row, or an exception. *)
Definition get_row {A} (rows : list A) : result A :=
  match rows with
  | [] => Raise DoesNotExist
  | [r] => Ok r
  | _ => Raise MultipleObjectsReturned
  end.

(** [get_object_or_404]: [DoesNotExist] becomes [Http404]. *)
Definition get_object_or_404 {A} (rows : list A) : result A :=
  match rows with
  | [] => Raise Http404
  | [r] => Ok r
  | _ => Raise MultipleObjectsReturned
  end.

(** [django.core.mail.send_mail]: the transport takes the message or
    raises. *)
Definition send_mail (subject message from_email : string)
    (recipient_list : list string) : M World unit :=
  fun w =>
    if smtp_up w
    then (Ok tt,
          set_outbox (fun o => (o ++ [Build_Email subject message from_email
                                                  recipient_list])%list) w)
    else (Raise SMTPException, w).

(** [str(uuid.uuid4())] *)
Definition uuid4 : M World string :=
  fun w => (Ok (random w (draws w)), set_draws S w).

(** What a view returns: [Response(data, status=...)]. *)
Record Response (B : Type) : Type := {
  data : B;
  status : Z
}.
Arguments Build_Response {B} _ _.
Arguments data {B} _.
Arguments status {B} _.

(** The status the client sees for the outcome of a view. *)
Definition http_status {B} (r : result (Response B)) : Z :=
  match r with
  | Ok resp => status resp
  | Raise e => status_of_exn e
  end.

(** ** api/serializers.py *)

(** A string of the model is a sequence of characters, one [ascii] for each:
    the model covers the text whose code points lie below 256. *)

(** [str.isspace] on one character. *)
Definition isspace (c : ascii) : bool :=
  let n := nat_of_ascii c in
  ((9 <=? n) && (n <=? 13) || (28 <=? n) && (n <=? 32)
   || (n =? 133) || (n =? 160))%nat.

(** [str.lstrip()], [str.rstrip()] and [str.strip()] *)
Fixpoint lstrip (s : string) : string :=
  match s with
  | EmptyString => EmptyString
  | String c rest => if isspace c then lstrip rest else s
  end.

Fixpoint rstrip (s : string) : string :=
  match s with
  | EmptyString => EmptyString
  | String c rest =>
      match rstrip rest with
      | EmptyString => if isspace c then EmptyString else String c EmptyString
      | kept => String c kept
      end
  end.

Definition strip (s : string) : string := rstrip (lstrip s).

(** The test of [ProhibitNullCharactersValidator]. *)
Fixpoint contains_nul (s : string) : bool :=
  match s with
  | EmptyString => false
  | String c rest => (nat_of_ascii c =? 0)%nat || contains_nul rest
  end.

Definition null_characters (value : string) : list string :=
  if contains_nul value then ["null_characters_not_allowed"] else [].

(** A [CharField] with the framework's defaults ([allow_blank=False],
    [trim_whitespace=True]): a missing key is [required], a value that is
    empty once stripped is [blank], and the validators see the stripped
    value, which is also the value handed on. *)
Definition CharField_codes (value : option string) : list string :=
  match value with
  | None => ["required"]
  | Some raw =>
      if (strip raw =? "")%string then ["blank"]
      else null_characters (strip raw)
  end.

(** [CategorySerializer] and [GenreSerializer] both render the fields
    [('name', 'slug')]. *)
Record NameSlug : Type := {
  ns_name : string;
  ns_slug : string
}.

Module CategorySerializer.
Definition to_representation (c : Category.t) : NameSlug :=
  {| ns_name := Category.name c; ns_slug := Category.slug c |}.
End CategorySerializer.

Module GenreSerializer.
Definition to_representation (g : Genre.t) : NameSlug :=
  {| ns_name := Genre.name g; ns_slug := Genre.slug g |}.
End GenreSerializer.

(** [sum(scores)] *)
Definition total (scores : list Z) : Z := fold_right Z.add 0 scores.

(** [django.db.models.Avg]: the mean of the joined values, [None] when there
    is none.  The database computes it in floating point or decimal; the
    model keeps the exact quotient. *)
Definition Avg (scores : list Z) : option Q :=
  match scores with
  | [] => None
  | _ => Some (inject_Z (total scores) / inject_Z (Z.of_nat (List.length scores)))%Q
  end.

(** [int(value)]: the fractional part is dropped. *)
Definition int (value : Q) : Z := Z.quot (Qnum value) (Z.pos (Qden value)).

(** A row of [Title.objects.all().annotate(rating=Avg('reviews__score'))]. *)
Module AnnotatedTitle.
Record t : Type := mk {
  title : Title.t;
  rating : option Q
}.
End AnnotatedTitle.

Module ReadOnlyTitleSerializer.
Record Data : Type := {
  id : Z;
  name : string;
  year : Z;
  description : string;
  rating : option Z;
  genre : list NameSlug;
  category : option NameSlug
}.

(** [rating = serializers.IntegerField()]; the serializer renders a [None]
    attribute as [None] without calling the field. *)
Definition rating_field (attribute : option Q) : option Z :=
  match attribute with
  | None => None
  | Some value => Some (int value)
  end.

(** [title.genre.all()]: the genres joined through the rows of the title,
    in the order the database hands them out. *)
Definition genre_field (w : World) (t : Title.t) : list NameSlug :=
  map GenreSerializer.to_representation
      (row_order w _
         (flat_map
            (fun gt : GenreTitle.t =>
               filter (fun g => Genre.id g =? GenreTitle.genre_id gt)
                      (db_genres w))
            (filter (fun gt => GenreTitle.title_id gt =? Title.id t)
                    (db_genre_titles w)))).

Definition category_field (w : World) (t : Title.t) : option NameSlug :=
  match Title.category_id t with
  | None => None
  | Some pk =>
      match filter (fun c => Category.id c =? pk) (db_categories w) with
      | c :: _ => Some (CategorySerializer.to_representation c)
      | [] => None
      end
  end.

Definition to_representation (w : World) (row : AnnotatedTitle.t) : Data :=
  let t := AnnotatedTitle.title row in
  {| id := Title.id t;
     name := Title.name t;
     year := Title.year t;
     description := Title.description t;
     rating := rating_field (AnnotatedTitle.rating row);
     genre := genre_field w t;
     category := category_field w t |}.
End ReadOnlyTitleSerializer.

Module TitleSerializer.
Section Update.
(** The loop of [update] hands each element of [validated_data['genre']] to
    [Genre.objects.get( **genre)].  The section is written over the
    elements and over what the lookup makes of one against the rows of the
    genre table; the elements and the lookup of the program follow it. *)
Variable GenreItem : Type.
Variable Genre_objects_get : GenreItem -> list Genre.t -> result Genre.t.

(** [validated_data]: a key is present or not. *)
Record ValidatedData : Type := {
  name : option string;
  year : option Z;
  description : option string;
  category : option Category.t;
  genre : option (list GenreItem)
}.

(** [for fieldname, value in validated_data.items(): setattr(...)], once
    ['genre'] has been popped. *)
Definition setattrs (instance : Title.t) (validated_data : ValidatedData)
  : Title.t :=
  Title.mk
    (Title.id instance)
    (match name validated_data with
     | Some v => v | None => Title.name instance end)
    (match year validated_data with
     | Some v => v | None => Title.year instance end)
    (match description validated_data with
     | Some v => v | None => Title.description instance end)
    (match category validated_data with
     | Some c => Some (Category.id c) | None => Title.category_id instance end).

(** [GenreTitle.objects.filter(title=instance).delete()] *)
Definition delete_genre_titles (instance : Title.t) : M World unit :=
  modify (set_genre_titles
            (filter (fun gt =>
                       negb (GenreTitle.title_id gt =? Title.id instance)))).

(** [GenreTitle.objects.create(genre=current_genre, title=instance)] *)
Definition create_genre_title (current_genre : Genre.t) (instance : Title.t)
  : M World unit :=
  modify (set_genre_titles
            (fun rows =>
               (rows ++ [GenreTitle.mk (Genre.id current_genre)
                                       (Title.id instance)])%list)).

(** [instance.save()]: the row with the instance's key is rewritten, or
    the instance is inserted when no row has it. *)
Definition save (instance : Title.t) : M World unit :=
  modify (set_titles
            (fun rows =>
               if existsb (fun t => Title.id t =? Title.id instance) rows
               then map (fun t => if Title.id t =? Title.id instance
                                  then instance else t) rows
               else (rows ++ [instance])%list)).

(** The body of the loop over the supplied genres. *)
Definition add_genre (instance : Title.t) (genre : GenreItem) : M World unit :=
  current_genre <- (table <- gets db_genres ;;
                    lift (Genre_objects_get genre table)) ;;
  create_genre_title current_genre instance.

Definition update (instance : Title.t) (validated_data : ValidatedData)
  : M World Title.t :=
  let genres :=
    match genre validated_data with
    | Some gs => gs
    | None => []
    end in
  let instance := setattrs instance validated_data in
  delete_genre_titles instance ;;
  for_each genres (add_genre instance) ;;
  save instance ;;
  ret instance.
End Update.

Arguments name {GenreItem} _.
Arguments year {GenreItem} _.
Arguments description {GenreItem} _.
Arguments category {GenreItem} _.
Arguments genre {GenreItem} _.
Arguments Build_ValidatedData {GenreItem} _ _ _ _ _.
Arguments setattrs {GenreItem} _ _.
Arguments add_genre {GenreItem} _ _ _.
Arguments update {GenreItem} _ _ _.

(** [genre] is a [SlugRelatedField(many=True, slug_field='slug',
    queryset=Genre.objects.all())]: the elements of
    [validated_data['genre']] are the [Genre] rows the field resolved.
    [Genre.objects.get( **genre)] unpacks its argument as keyword
    arguments, which takes a mapping; a model instance is none, so the call
    raises [TypeError] before the table is read. *)
Definition Genre_objects_get (genre : Genre.t) (table : list Genre.t)
  : result Genre.t :=
  Raise TypeError.

Section Create.
(** [reviews/models.py] is not among the sources: the values the [Title]
    model gives to the fields [Title.objects.create] is not passed are a
    parameter. *)
Variable Title_defaults : Title.t.

(** [Title.objects.create( **validated_data)], once ['genre'] has been
    popped. *)
Definition Title_objects_create (validated_data : ValidatedData Genre.t)
  : M World Title.t :=
  rows <- gets db_titles ;;
  let title :=
    setattrs (Title.mk (next_pk (map Title.id rows))
                       (Title.name Title_defaults) (Title.year Title_defaults)
                       (Title.description Title_defaults)
                       (Title.category_id Title_defaults))
             validated_data in
  modify (set_titles (fun rows => (rows ++ [title])%list)) ;;
  ret title.

(** On a create the elements of [validated_data['genre']] are the [Genre]
    rows the slug field resolved; [pop] without a default raises on a
    missing key. *)
Definition create (validated_data : ValidatedData Genre.t) : M World Title.t :=
  match genre validated_data with
  | None => raise (KeyError "genre")
  | Some genres =>
      title <- Title_objects_create validated_data ;;
      for_each genres (fun genre => create_genre_title genre title) ;;
      ret title
  end.
End Create.
End TitleSerializer.

(** [request.data] of the registration and token endpoints: a key is present
    or not. *)
Module RegisterRequest.
Record t : Type := mk {
  username : option string;
  email : option string
}.

(** [request.data[key]] *)
Definition getitem (d : t) (key : string) : result string :=
  match (if key =? "username" then username d
         else if key =? "email" then email d
         else None)%string with
  | Some v => Ok v
  | None => Raise (KeyError key)
  end.
End RegisterRequest.

Module TokenRequest.
Record t : Type := mk {
  username : option string;
  confirmation_code : option string
}.
End TokenRequest.

Module ReviewRequest.
Record t : Type := mk {
  text : option string;
  score : option Z
}.
End ReviewRequest.

Definition field_errors (field : string) (codes : list string)
  : list (string * string) :=
  map (fun code => (field, code)) codes.

Module RegisterSerializer.
Section Validation.
(** Django's [EmailValidator], applied by the [EmailField] of the user
    model; its definition belongs to the framework. *)
Variable EmailValidator : string -> bool.

Record ValidatedData : Type := {
  email : string;
  username : string
}.

Definition validate_username (value : string) : result string :=
  if (value =? "me")%string
  then Raise (ValidationError [("username", "invalid")])
  else Ok value.

(** [email = models.EmailField(unique=True)]: the serializer's [EmailField]
    with the [UniqueValidator], the model field's [max_length] of 254, the
    check for null characters and the [EmailValidator], all on the stripped
    value. *)
Definition email_codes (rows : list User.t) (value : option string)
  : list string :=
  match value with
  | None => ["required"]
  | Some raw =>
      let v := strip raw in
      if (v =? "")%string then ["blank"]
      else
        ((if existsb (fun u => (User.email u =? v)%string) rows
          then ["unique"] else [])
         ++ (if (254 <? String.length v)%nat then ["max_length"] else [])
         ++ null_characters v
         ++ (if EmailValidator v then [] else ["invalid"]))%list
  end.

(** [username = models.CharField(max_length=25, unique=True)]: the
    serializer's [CharField] with the [UniqueValidator], [max_length] and the
    check for null characters on the stripped value, then
    [validate_username] when the field itself is sound. *)
Definition username_codes (rows : list User.t) (value : option string)
  : list string :=
  match value with
  | None => ["required"]
  | Some raw =>
      let v := strip raw in
      if (v =? "")%string then ["blank"]
      else
        match ((if existsb (fun u => (User.username u =? v)%string) rows
                then ["unique"] else [])
               ++ (if (25 <? String.length v)%nat then ["max_length"] else [])
               ++ null_characters v)%list with
        | [] => match validate_username v with
                | Ok _ => []
                | Raise _ => ["invalid"]
                end
        | codes => codes
        end
  end.

(** [UniqueTogetherValidator(User.objects.all(), ('email', 'username'))] *)
Definition unique_together (rows : list User.t) (attrs : ValidatedData)
  : bool :=
  negb (existsb (fun u => (User.email u =? email attrs)%string
                          && (User.username u =? username attrs)%string)
                rows).

(** [serializer.is_valid(raise_exception=True)] against the rows of
    [User.objects.all()]; the validated attributes are the stripped
    values. *)
Definition is_valid (rows : list User.t) (d : RegisterRequest.t)
  : result ValidatedData :=
  match (field_errors "email" (email_codes rows (RegisterRequest.email d))
         ++ field_errors "username"
              (username_codes rows (RegisterRequest.username d)))%list,
        RegisterRequest.email d, RegisterRequest.username d with
  | [], Some e, Some u =>
      let attrs := {| email := strip e; username := strip u |} in
      if unique_together rows attrs then Ok attrs
      else Raise (ValidationError [("non_field_errors", "unique")])
  | errors, _, _ => Raise (ValidationError errors)
  end.

(** [serializer.data] *)
Definition to_representation (u : User.t) : RegisterRequest.t :=
  RegisterRequest.mk (Some (User.username u)) (Some (User.email u)).
End Validation.
End RegisterSerializer.

Module ObtainTokenSerializer.
Record ValidatedData : Type := {
  username : string;
  confirmation_code : string
}.

(** [username] and [confirmation_code] are [CharField(required=True)]; the
    errors of both are collected, and [validate] gets the stripped
    values. *)
Definition run_fields (d : TokenRequest.t) : result ValidatedData :=
  match (field_errors "username" (CharField_codes (TokenRequest.username d))
         ++ field_errors "confirmation_code"
              (CharField_codes (TokenRequest.confirmation_code d)))%list,
        TokenRequest.username d, TokenRequest.confirmation_code d with
  | [], Some u, Some c =>
      Ok {| username := strip u; confirmation_code := strip c |}
  | errors, _, _ => Raise (ValidationError errors)
  end.

Definition validate (rows : list User.t) (data : ValidatedData)
  : result ValidatedData :=
  user <- get_object_or_404
            (filter (fun u => (User.username u =? username data)%string) rows) ;;
  if negb (confirmation_code data =? User.confirmation_code user)%string
  then Raise (ValidationError [("non_field_errors", "invalid")])
  else Ok data.

(** [serializer.is_valid(raise_exception=True)] *)
Definition is_valid (rows : list User.t) (d : TokenRequest.t)
  : result ValidatedData :=
  data <- run_fields d ;; validate rows data.
End ObtainTokenSerializer.

(** [CreateTitleDefault.__call__]: the title named by the route. *)
Definition CreateTitleDefault (title_id : Z) : M World Title.t :=
  rows <- gets db_titles ;;
  lift (get_object_or_404 (filter (fun t => Title.id t =? title_id) rows)).

Module ReviewSerializer.
(** The attributes handed to the validators and to [save]: the two
    writable fields, the hidden [title], and the [author] default (the
    current user). *)
Record ValidatedData : Type := {
  text : string;
  score : Z;
  title : Title.t;
  author : RequestUser
}.

(** [text] is the [CharField] the model serializer builds. *)
Definition text_codes (value : option string) : list string :=
  CharField_codes value.

(** [score = serializers.IntegerField(min_value=1, max_value=10)] *)
Definition score_codes (value : option Z) : list string :=
  match value with
  | None => ["required"]
  | Some v =>
      ((if v <? 1 then ["min_value"] else [])
       ++ (if 10 <? v then ["max_value"] else []))%list
  end.

(** [UniqueTogetherValidator(Review.objects.all(), ['author', 'title'])] *)
Definition unique_together (rows : list Review.t) (attrs : ValidatedData) : bool :=
  negb (existsb (fun r => Model_eq (Review.author_id r) (author attrs)
                          && (Review.title_id r =? Title.id (title attrs)))
                rows).

(** [serializer.is_valid(raise_exception=True)] on a create.  The fields
    run in the order of [Meta.fields]; the errors of [text] and [score]
    are collected, while the [Http404] of the hidden [title] default
    leaves at once. *)
Definition is_valid (request : Request) (title_id : Z) (d : ReviewRequest.t)
  : M World ValidatedData :=
  let errors :=
    (field_errors "text" (text_codes (ReviewRequest.text d))
     ++ field_errors "score" (score_codes (ReviewRequest.score d)))%list in
  title <- CreateTitleDefault title_id ;;
  match errors, ReviewRequest.text d, ReviewRequest.score d with
  | [], Some t, Some s =>
      let attrs := {| text := strip t; score := s; title := title;
                      author := user request |} in
      rows <- gets db_reviews ;;
      if unique_together rows attrs then ret attrs
      else raise (ValidationError [("non_field_errors", "unique")])
  | _, _, _ => raise (ValidationError errors)
  end.

(** [Review.objects.create( **validated_data)] *)
Definition save (t : string) (s : Z) (title : Title.t) (author : User.t)
  : M World Review.t :=
  rows <- gets db_reviews ;;
  clock <- gets now ;;
  let review := Review.mk (next_pk (map Review.id rows)) t (User.id author) s
                          clock (Title.id title) in
  modify (set_reviews (fun rows => (rows ++ [review])%list)) ;;
  ret review.
End ReviewSerializer.

(** ** api/views.py *)

(** The actions of a [ModelViewSet]. *)
Module Action.
Inductive t : Type :=
| list_ | create | retrieve | update | partial_update | destroy.

Definition name (a : t) : string :=
  match a with
  | list_ => "list"
  | create => "create"
  | retrieve => "retrieve"
  | update => "update"
  | partial_update => "partial_update"
  | destroy => "destroy"
  end.

(** The method the router binds the action to. *)
Definition http_method (a : t) : string :=
  match a with
  | list_ | retrieve => "GET"
  | create => "POST"
  | update => "PUT"
  | partial_update => "PATCH"
  | destroy => "DELETE"
  end.
End Action.

Module RegisterViewSet.
Section Create.
Variable EmailValidator : string -> bool.

Definition perform_create (attrs : RegisterSerializer.ValidatedData)
  : M World User.t :=
  confirmation_code <- uuid4 ;;
  rows <- gets db_users ;;
  let user := User.mk (next_pk (map User.id rows))
                      (RegisterSerializer.username attrs)
                      (RegisterSerializer.email attrs)
                      "" "user" confirmation_code false in
  modify (set_users (fun rows => (rows ++ [user])%list)) ;;
  send_mail "E-mail verification"
            ("Your confirmation_code is " ++ confirmation_code)
            "register@yamdb.ru"
            [User.email user] ;;
  ret user.

(** The body of the [try]: look the pair up and mail the stored code. *)
Definition resend (d : RegisterRequest.t)
  : M World (Response RegisterRequest.t) :=
  username <- lift (RegisterRequest.getitem d "username") ;;
  email <- lift (RegisterRequest.getitem d "email") ;;
  rows <- gets db_users ;;
  user <- lift (first_row
                  (filter (fun u => (User.username u =? username)%string
                                    && (User.email u =? email)%string)
                          rows)) ;;
  recipient <- lift (RegisterRequest.getitem d "email") ;;
  send_mail "E-mail verification"
            ("Your confirmation_code is " ++ User.confirmation_code user)
            "register@yamdb.ru"
            [recipient] ;;
  ret (Build_Response d 200).

(** The body of the [except]: validate the payload and create the
    user. *)
Definition validate_and_create (d : RegisterRequest.t)
  : M World (Response RegisterRequest.t) :=
  rows <- gets db_users ;;
  attrs <- lift (RegisterSerializer.is_valid EmailValidator rows d) ;;
  user <- perform_create attrs ;;
  ret (Build_Response (RegisterSerializer.to_representation user) 200).

Definition create (d : RegisterRequest.t)
  : M World (Response RegisterRequest.t) :=
  try_except_Exception (resend d) (validate_and_create d).
End Create.
End RegisterViewSet.

(** The claims of the access token [RefreshToken.for_user(user).access_token];
    its signature and expiry come from the token library and the
    settings. *)
Record AccessToken : Type := {
  token_type : string;
  user_id : Z
}.

Module ObtainTokenView.
Definition post (d : TokenRequest.t) : M World (Response AccessToken) :=
  rows <- gets db_users ;;
  data <- lift (ObtainTokenSerializer.is_valid rows d) ;;
  rows <- gets db_users ;;
  user <- lift (get_object_or_404
                  (filter (fun u => (User.username u
                                     =? ObtainTokenSerializer.username data)%string)
                          rows)) ;;
  ret (Build_Response {| token_type := "access"; user_id := User.id user |} 200).
End ObtainTokenView.

Module TitleViewSet.
(** [Title.objects.all().annotate(rating=Avg('reviews__score'))] *)
Definition queryset (w : World) : list AnnotatedTitle.t :=
  map (fun t =>
         AnnotatedTitle.mk t
           (Avg (map Review.score
                     (filter (fun r => Review.title_id r =? Title.id t)
                             (db_reviews w)))))
      (db_titles w).

Definition get_serializer_class (action : Action.t) : string :=
  if in_strings (Action.name action) ["create"; "partial_update"]
  then "TitleSerializer" else "ReadOnlyTitleSerializer".

(** The [list] action, before filtering and pagination: the rows of the
    queryset in the order the database hands them out. *)
Definition list_ : M World (Response (list ReadOnlyTitleSerializer.Data)) :=
  fun w =>
    (Ok (Build_Response
           (map (ReadOnlyTitleSerializer.to_representation w)
                (row_order w _ (queryset w))) 200),
     w).

(** The [retrieve] action. *)
Definition retrieve (pk : Z) : M World (Response ReadOnlyTitleSerializer.Data) :=
  fun w =>
    match get_object_or_404
            (filter (fun row => Title.id (AnnotatedTitle.title row) =? pk)
                    (queryset w)) with
    | Ok row =>
        (Ok (Build_Response (ReadOnlyTitleSerializer.to_representation w row) 200),
         w)
    | Raise e => (Raise e, w)
    end.

Definition permission_classes {O} (rule : OrObjectRule) : list (Permission O) :=
  [OR rule (AND IsAuthenticated (OR rule IsAdmin IsSuperuser)) IsReadOnly].
End TitleViewSet.

Module UsersManageViewSet.
Definition permission_classes {O} (rule : OrObjectRule) : list (Permission O) :=
  [AND IsAuthenticated (OR rule IsAdmin IsSuperuser)].
End UsersManageViewSet.

(** The base of [CategoryViewSet] and [GenreViewSet]. *)
Module SlugNameViewSet.
Definition permission_classes {O} (rule : OrObjectRule) : list (Permission O) :=
  [OR rule (AND IsAuthenticated (OR rule IsAdmin IsSuperuser)) IsReadOnly].
End SlugNameViewSet.

Module ReviewViewSet.
Definition get_permissions (rule : OrObjectRule) (action : Action.t)
  : list (Permission Review.t) :=
  if in_strings (Action.name action) ["partial_update"; "destroy"]
  then [AND IsAuthenticated
            (OR rule (OR rule (OR rule IsAuthor IsModerator) IsAdmin)
                IsSuperuser)]
  else [OR rule (AND IsAuthenticated IsAuthor) IsReadOnly].

Definition perform_create (request : Request) (title_id : Z)
    (attrs : ReviewSerializer.ValidatedData) : M World Review.t :=
  rows <- gets db_titles ;;
  title <- lift (get_object_or_404
                   (filter (fun t => Title.id t =? title_id) rows)) ;;
  match user request with
  | Authenticated author =>
      ReviewSerializer.save (ReviewSerializer.text attrs)
                            (ReviewSerializer.score attrs) title author
  | AnonymousUser => raise ValueError
  end.

(** [CreateModelMixin.create] behind the list-level permission check. *)
Definition create (rule : OrObjectRule) (request : Request) (title_id : Z)
    (d : ReviewRequest.t) : M World (Response Review.t) :=
  lift (check_permissions (get_permissions rule Action.create) request) ;;
  attrs <- ReviewSerializer.is_valid request title_id d ;;
  review <- perform_create request title_id attrs ;;
  ret (Build_Response review 201).

(** [title.reviews.all()] for the title of the route, in the order the
    database hands the reviews out. *)
Definition get_queryset (title_id : Z) : M World (list Review.t) :=
  rows <- gets db_titles ;;
  title <- lift (get_object_or_404
                   (filter (fun t => Title.id t =? title_id) rows)) ;;
  reviews <- gets db_reviews ;;
  order <- gets row_order ;;
  ret (order _ (filter (fun r => Review.title_id r =? Title.id title) reviews)).
End ReviewViewSet.

Module CommentViewSet.
Definition get_permissions (rule : OrObjectRule) (action : Action.t)
  : list (Permission Comment.t) :=
  if in_strings (Action.name action) ["partial_update"; "destroy"]
  then [AND IsAuthenticated
            (OR rule (OR rule (OR rule IsAuthor IsModerator) IsAdmin)
                IsSuperuser)]
  else [OR rule (AND IsAuthenticated IsAuthor) IsReadOnly].
End CommentViewSet.

(** ** Notions the statements use *)

(** The caller is logged in and is the author, a moderator, an admin or a
    superuser. *)
Definition may_modify (request : Request) (author_pk : Z) : Prop :=
  exists u,
    user request = Authenticated u
    /\ (User.id u = author_pk
        \/ User.role u = ROLES.name ROLES.moderator
        \/ User.role u = ROLES.name ROLES.admin
        \/ User.is_superuser u = true).

(** The join rows left once those of [instance] are deleted. *)
Definition rows_of_others (instance : Title.t) (rows : list GenreTitle.t)
  : list GenreTitle.t :=
  filter (fun gt => negb (GenreTitle.title_id gt =? Title.id instance)) rows.

(** One join row per resolved genre, for [instance]. *)
Definition fresh_rows (instance : Title.t) (resolved : list Genre.t)
  : list GenreTitle.t :=
  map (fun g => GenreTitle.mk (Genre.id g) (Title.id instance)) resolved.

(** A [CharField] takes the string: stripped, it is not empty and holds no
    null character. *)
Definition accepted (raw : string) : Prop :=
  strip raw <> "" /\ contains_nul (strip raw) = false.

(** The database hands out the rows of a query in some order: none is
    lost, added or repeated. *)
Definition faithful_order (w : World) : Prop :=
  forall (A : Type) (rows : list A), Permutation (row_order w A rows) rows.

(** Two answers of a query agree up to the order of the rows. *)
Definition same_rows {A} (x y : result (list A)) : Prop :=
  match x, y with
  | Ok rows, Ok rows' => Permutation rows rows'
  | Raise e, Raise e' => e = e'
  | _, _ => False
  end.

(** The uniqueness the database keeps for [username]. *)
Definition unique_usernames (w : World) : Prop :=
  NoDup (map User.username (db_users w)).

(** The rows the registration endpoint looks for first. *)
Definition exact_matches (w : World) (name mail : string) : list User.t :=
  filter (fun u => (User.username u =? name)%string
                   && (User.email u =? mail)%string)
         (db_users w).

(** The row [perform_create] inserts for validated attributes. *)
Definition new_user (w : World) (attrs : RegisterSerializer.ValidatedData)
  : User.t :=
  User.mk (next_pk (map User.id (db_users w)))
          (RegisterSerializer.username attrs) (RegisterSerializer.email attrs)
          "" "user" (random w (draws w)) false.



(** The row [ReviewSerializer.save] inserts. *)
Definition new_review (w : World) (t : string) (s : Z) (title : Title.t)
    (author : User.t) : Review.t :=
  Review.mk (next_pk (map Review.id (db_reviews w))) t (User.id author) s
            (now w) (Title.id title).

(** The request uses a method of [SAFE_METHODS]. *)
Definition is_safe (request : Request) : bool :=
  in_strings (method request) SAFE_METHODS.

(** The caller is logged in and is an admin or a superuser. *)
Definition privileged (request : Request) : Prop :=
  exists u,
    user request = Authenticated u
    /\ (User.role u = ROLES.name ROLES.admin \/ User.is_superuser u = true).

(** The uniqueness the database keeps for [email]. *)
Definition unique_emails (w : World) : Prop :=
  NoDup (map User.email (db_users w)).

(** [l] begins with [prefix]. *)
Definition extends {A} (prefix l : list A) : Prop :=
  exists added, l = (prefix ++ added)%list.

(** The table [instance.save()] leaves. *)
Definition saved (instance : Title.t) (rows : list Title.t) : list Title.t :=
  if existsb (fun t => Title.id t =? Title.id instance) rows
  then map (fun t => if Title.id t =? Title.id instance then instance else t) rows
  else (rows ++ [instance])%list.

(** The uniqueness the database keeps for the keys of titles and genres. *)
Definition unique_title_ids (w : World) : Prop :=
  NoDup (map Title.id (db_titles w)).

(** ** Sample rows for the concrete runs below *)

Definition alice : User.t :=
  User.mk 1 "alice" "alice@yamdb.ru" "" "user" "code-alice" false.
Definition bob : User.t :=
  User.mk 2 "bob" "bob@yamdb.ru" "" "user" "code-bob" false.
Definition carol : User.t :=
  User.mk 3 "carol" "carol@yamdb.ru" "" "moderator" "code-carol" false.

Definition request_of (m : string) (u : User.t) : Request :=
  {| method := m; user := Authenticated u |}.

(** A review and a comment written by [alice]. *)
Definition alice_review : Review.t := Review.mk 1 "a classic" 1 9 100 1.
Definition alice_comment : Comment.t := Comment.mk 1 "agreed" 1 101 1.

(** The scores of the reviews that reference a title. *)
Definition scores_of (w : World) (t : Title.t) : list Z :=
  map Review.score
      (filter (fun r => Review.title_id r =? Title.id t) (db_reviews w)).

(** The arithmetic mean the specification speaks of, as an exact
    fraction. *)
Definition arithmetic_mean (scores : list Z) : Q :=
  (inject_Z (total scores) / inject_Z (Z.of_nat (List.length scores)))%Q.

(** One title with two reviews, scored 7 and 8. *)
Definition two_reviews : World :=
  {| db_users := [alice; bob];
     db_categories := [Category.mk 1 "Film" "film"];
     db_genres := [Genre.mk 1 "Drama" "drama"; Genre.mk 2 "Sci-fi" "scifi"];
     db_titles := [Title.mk 1 "Solaris" 1972 "" (Some 1)];
     db_genre_titles := [GenreTitle.mk 1 1];
     db_reviews := [Review.mk 1 "slow" 1 7 100 1; Review.mk 2 "deep" 2 8 101 1];
     outbox := [];
     smtp_up := true;
     random := fun _ => "00000000-0000-4000-8000-000000000000";
     draws := 0;
     now := 102;
     row_order := fun _ rows => rows |}.

(** The same world with the mail transport out of reach. *)
Definition mail_down : World := set_smtp_up false two_reviews.

(** The message the registration endpoint sends. *)
Definition code_mail (code recipient : string) : Email :=
  {| subject := "E-mail verification";
     message := "Your confirmation_code is " ++ code;
     from_email := "register@yamdb.ru";
     recipient_list := [recipient] |}.

(** The three ways a registration can end: an error with nothing changed, a
    resend to an existing user, or a new user (whose mail may fail). *)
Definition ends_unchanged (EmailValidator : string -> bool)
    (d : RegisterRequest.t) (w : World) : Prop :=
  exists e, RegisterViewSet.create EmailValidator d w = (Raise e, w).

Definition ends_resent (EmailValidator : string -> bool)
    (d : RegisterRequest.t) (w : World) : Prop :=
  exists row,
    In row (db_users w)
    /\ RegisterRequest.username d = Some (User.username row)
    /\ RegisterRequest.email d = Some (User.email row)
    /\ RegisterViewSet.create EmailValidator d w
       = (Ok (Build_Response d 200),
          set_outbox
            (fun o => (o ++ [code_mail (User.confirmation_code row)
                                       (User.email row)])%list) w).

Definition ends_created (EmailValidator : string -> bool)
    (d : RegisterRequest.t) (w : World) : Prop :=
  exists attrs,
    RegisterSerializer.is_valid EmailValidator (db_users w) d = Ok attrs
    /\ let new := new_user w attrs in
       let w1 := set_users (fun rows => (rows ++ [new])%list) (set_draws S w) in
       (RegisterViewSet.create EmailValidator d w = (Raise SMTPException, w1)
        \/ RegisterViewSet.create EmailValidator d w
           = (Ok (Build_Response (RegisterSerializer.to_representation new) 200),
              set_outbox
                (fun o => (o ++ [code_mail (User.confirmation_code new)
                                           (User.email new)])%list) w1)).

Definition solaris : Title.t := Title.mk 1 "Solaris" 1972 "" (Some 1).

(** * Properties *)

(** ** Authorization predicates *)

Lemma Model_eq_true (pk : Z) (c : RequestUser) :
  Model_eq pk c = true <-> exists u, c = Authenticated u /\ User.id u = pk.
Proof.
  destruct c as [|u]; simpl.
  - split; [discriminate | intros [u [H _]]; discriminate].
  - rewrite Z.eqb_eq. split.
    + intros ->. exists u. split; reflexivity.
    + intros [u' [H <-]]. injection H as ->. reflexivity.
Qed.

(** C6 (as stated, refuted): at the list level [IsAuthor] answers [True], for
    instance for an anonymous [GET]. *)
Lemma IsAuthor_list_level_is_not_false :
  has_permission (IsAuthor (O := Review.t))
                 {| method := "GET"; user := AnonymousUser |} = Ok true
  /\ has_permission (IsAuthor (O := Review.t))
                    {| method := "GET"; user := AnonymousUser |} <> Ok false.
Proof. split; [reflexivity | discriminate]. Qed.

(** C6 (amended): on a target object [IsAuthor] answers [True] exactly when
    the caller is the user the object's author key names, and [False]
    otherwise; without a target object it answers [True] for every
    request. *)
Theorem IsAuthor_object_scoped :
  forall (O : Type) (A : Authored O) (request : Request) (obj : O),
    (has_object_permission IsAuthor request obj = Ok true
     <-> exists u, user request = Authenticated u /\ User.id u = author_id obj)
    /\ (has_object_permission IsAuthor request obj = Ok false
        <-> ~ exists u, user request = Authenticated u
                        /\ User.id u = author_id obj)
    /\ has_permission IsAuthor request = Ok true.
Proof.
  intros O A request obj. simpl.
  pose proof (Model_eq_true (author_id obj) (user request)) as E.
  destruct (Model_eq (author_id obj) (user request)); repeat split.
  - intros _. apply E. reflexivity.
  - discriminate.
  - intros H. exfalso. apply H, E. reflexivity.
  - intros H. injection H as H. apply E in H. assumption.
  - intros H. apply E in H. discriminate.
  - intros _ H. apply E in H. discriminate.
Qed.

(** C7 (as stated, refuted): for an anonymous caller the list-level check of
    [IsAuthor] is [True]. *)
Lemma anonymous_passes_IsAuthor_list_level :
  has_permission (IsAuthor (O := Comment.t))
                 {| method := "POST"; user := AnonymousUser |} <> Ok false.
Proof. discriminate. Qed.

(** C7 (amended): for an anonymous caller [IsAdmin], [IsSuperuser] and
    [IsModerator] return [False] at the list level and at the object level,
    [IsAuthor] returns [False] at the object level, and none of them raises;
    the list-level check of [IsAuthor] returns [True]. *)
Theorem anonymous_fails_identity_predicates :
  forall (O : Type) (A : Authored O) (request : Request) (obj : O),
    user request = AnonymousUser ->
    has_permission (IsAdmin (O := O)) request = Ok false
    /\ has_object_permission IsAdmin request obj = Ok false
    /\ has_permission (IsSuperuser (O := O)) request = Ok false
    /\ has_object_permission IsSuperuser request obj = Ok false
    /\ has_permission (IsModerator (O := O)) request = Ok false
    /\ has_object_permission IsModerator request obj = Ok false
    /\ has_object_permission IsAuthor request obj = Ok false
    /\ has_permission IsAuthor request = Ok true.
Proof.
  intros O A request obj H. simpl. unfold role_is. rewrite H. simpl.
  repeat split; reflexivity.
Qed.

Lemma anonymous_fails_identity_predicates_witness :
  has_permission (IsAdmin (O := Review.t))
                 {| method := "DELETE"; user := AnonymousUser |} = Ok false
  /\ has_object_permission IsAuthor
       {| method := "DELETE"; user := AnonymousUser |}
       (Review.mk 1 "fine" 7 8 0 1) = Ok false.
Proof.
  pose proof (anonymous_fails_identity_predicates
                Review.t _ {| method := "DELETE"; user := AnonymousUser |}
                (Review.mk 1 "fine" 7 8 0 1) eq_refl) as H.
  split; [apply H | apply H].
Defined.

(** ** Changing and deleting reviews and comments *)

Ltac split_tests :=
  repeat match goal with
         | |- context [Z.eqb ?a ?b] => destruct (Z.eqb_spec a b)
         | |- context [String.eqb ?a ?b] => destruct (String.eqb_spec a b)
         | |- context [User.is_superuser ?u] =>
             destruct (User.is_superuser u) eqn:?
         end; cbn.

Lemma privileged_policy {O} `{Authored O} (rule : OrObjectRule)
    (request : Request) (obj : O) :
  let policy :=
    [AND IsAuthenticated
         (OR rule (OR rule (OR rule IsAuthor IsModerator) IsAdmin) IsSuperuser)] in
  (authorize policy request obj = Ok tt <-> may_modify request (author_id obj))
  /\ (is_authenticated (user request) = true ->
      ~ may_modify request (author_id obj) ->
      authorize policy request obj = Raise PermissionDenied).
Proof.
  unfold may_modify. destruct request as [m [|u]]; cbn.
  - split.
    + split; [discriminate | intros [u [E _]]; discriminate].
    + discriminate.
  - destruct rule; cbn; unfold role_is; cbn; split_tests;
      (split;
       [ split;
         [ intros E;
           first [ discriminate E
                 | exists u; split; [reflexivity | intuition congruence] ]
         | intros [u' [E D]]; injection E as <-;
           first [ reflexivity | exfalso; intuition congruence ] ]
       | intros _ N;
         first [ reflexivity
               | exfalso; apply N; exists u; split;
                 [reflexivity | intuition congruence] ] ]).
Qed.

(** On [partial_update] and [destroy] a review is open to the callers of
    [may_modify] and to nobody else; a logged-in caller outside them gets
    [PermissionDenied]. *)
Lemma review_change_policy (rule : OrObjectRule) (action : Action.t)
    (request : Request) (obj : Review.t) :
  action = Action.partial_update \/ action = Action.destroy ->
  (authorize (ReviewViewSet.get_permissions rule action) request obj = Ok tt
   <-> may_modify request (Review.author_id obj))
  /\ (is_authenticated (user request) = true ->
      ~ may_modify request (Review.author_id obj) ->
      authorize (ReviewViewSet.get_permissions rule action) request obj
      = Raise PermissionDenied).
Proof.
  intros [-> | ->]; exact (privileged_policy rule request obj).
Qed.

Lemma comment_change_policy (rule : OrObjectRule) (action : Action.t)
    (request : Request) (obj : Comment.t) :
  action = Action.partial_update \/ action = Action.destroy ->
  (authorize (CommentViewSet.get_permissions rule action) request obj = Ok tt
   <-> may_modify request (Comment.author_id obj))
  /\ (is_authenticated (user request) = true ->
      ~ may_modify request (Comment.author_id obj) ->
      authorize (CommentViewSet.get_permissions rule action) request obj
      = Raise PermissionDenied).
Proof.
  intros [-> | ->]; exact (privileged_policy rule request obj).
Qed.

Lemma bob_may_not_modify_alice's :
  ~ may_modify (request_of "PUT" bob) (User.id alice).
Proof.
  intros [u [E D]]. injection E as <-. cbn in D.
  destruct D as [D | [D | [D | D]]]; discriminate D.
Qed.

Lemma carol_may_modify_alice's :
  may_modify (request_of "PUT" carol) (User.id alice).
Proof.
  exists carol. split; [reflexivity | right; left; reflexivity].
Qed.

(** C2 (the code at the failing input): the [update] action (a [PUT]) is not
    in the list [get_permissions] tests, so it gets the policy of the other
    branch.  Where [OR] takes the disjunction of the object checks, [bob],
    an ordinary user, may overwrite the review and the comment of [alice];
    where [OR] guards each object check by its list-level check, [carol], a
    moderator, is refused on both. *)
Theorem update_action_escapes_change_policy :
  (authorize (ReviewViewSet.get_permissions OrEither Action.update)
             (request_of (Action.http_method Action.update) bob) alice_review
   = Ok tt
   /\ authorize (CommentViewSet.get_permissions OrEither Action.update)
                (request_of (Action.http_method Action.update) bob) alice_comment
      = Ok tt
   /\ ~ may_modify (request_of "PUT" bob) (Review.author_id alice_review))
  /\ (authorize (ReviewViewSet.get_permissions OrGuarded Action.update)
                (request_of (Action.http_method Action.update) carol) alice_review
      = Raise PermissionDenied
      /\ authorize (CommentViewSet.get_permissions OrGuarded Action.update)
                   (request_of (Action.http_method Action.update) carol)
                   alice_comment
         = Raise PermissionDenied
      /\ may_modify (request_of "PUT" carol) (Review.author_id alice_review)).
Proof.
  repeat split; try reflexivity.
  - exact bob_may_not_modify_alice's.
  - exact carol_may_modify_alice's.
Qed.

(** ** Ratings *)

Lemma Avg_nonempty (scores : list Z) :
  scores <> [] -> Avg scores = Some (arithmetic_mean scores).
Proof. destruct scores; [contradiction | reflexivity]. Qed.

Lemma total_nonneg (scores : list Z) :
  Forall (fun s => 0 <= s) scores -> 0 <= total scores.
Proof.
  induction 1 as [|s rest Hs _ IH]; simpl; lia.
Qed.

(** On a fraction that is not negative, [int] is the floor. *)
Lemma int_floor (q : Q) : 0 <= Qnum q -> int q = Qfloor q.
Proof.
  intros H. destruct q as [n d]. unfold int. simpl in *.
  apply Z.quot_div_nonneg; lia.
Qed.

Lemma arithmetic_mean_num_nonneg (scores : list Z) :
  Forall (fun s => 0 <= s) scores -> 0 <= Qnum (arithmetic_mean scores).
Proof.
  intros H. apply total_nonneg in H. unfold arithmetic_mean.
  pose proof (Nat2Z.is_nonneg (List.length scores)) as Hn.
  destruct (Z.of_nat (List.length scores)) as [|p|p];
    unfold Qdiv, Qmult, Qinv; simpl; lia.
Qed.

Lemma queryset_row (w : World) (row : AnnotatedTitle.t) :
  In row (TitleViewSet.queryset w) ->
  AnnotatedTitle.rating row = Avg (scores_of w (AnnotatedTitle.title row)).
Proof.
  unfold TitleViewSet.queryset. intros H. apply in_map_iff in H.
  destruct H as [t [<- _]]. reflexivity.
Qed.

(** C3 (as stated, refuted): a title whose two reviews score 7 and 8 is shown
    with rating 7, in the detail response and in the list, while the mean of
    its scores is 15/2. *)
Lemma shown_rating_is_not_the_mean :
  (exists resp,
      fst (TitleViewSet.retrieve 1 two_reviews) = Ok resp
      /\ ReadOnlyTitleSerializer.rating (data resp) = Some 7)
  /\ (exists resp,
         fst (TitleViewSet.list_ two_reviews) = Ok resp
         /\ map ReadOnlyTitleSerializer.rating (data resp) = [Some 7])
  /\ scores_of two_reviews (Title.mk 1 "Solaris" 1972 "" (Some 1)) = [7; 8]
  /\ ~ Qeq (inject_Z 7) (arithmetic_mean [7; 8]).
Proof.
  split; [eexists; split; reflexivity |].
  split; [eexists; split; reflexivity |].
  split; [reflexivity |].
  intros H. vm_compute in H. discriminate H.
Qed.

(** C3 (amended): in every row a list or detail response is rendered from, a
    title without reviews has rating [None]; a title with reviews has the
    mean of their scores with the fraction dropped, i.e. the integer [r] with
    [r <= mean < r + 1] (scores, as validated, are not negative), which is
    the mean itself exactly when the mean is an integer. *)
Theorem rating_is_truncated_mean (w : World) (row : AnnotatedTitle.t) :
  In row (TitleViewSet.queryset w) ->
  Forall (fun s => 0 <= s) (scores_of w (AnnotatedTitle.title row)) ->
  let scores := scores_of w (AnnotatedTitle.title row) in
  let shown :=
    ReadOnlyTitleSerializer.rating
      (ReadOnlyTitleSerializer.to_representation w row) in
  (scores = [] -> shown = None)
  /\ (scores <> [] ->
      exists r,
        shown = Some r
        /\ (inject_Z r <= arithmetic_mean scores)%Q
        /\ (arithmetic_mean scores < inject_Z (r + 1))%Q
        /\ (forall k, (arithmetic_mean scores == inject_Z k)%Q -> r = k)).
Proof.
  intros Hrow Hpos scores shown. subst shown. cbn.
  rewrite (queryset_row w row Hrow). fold scores. split.
  - intros ->. reflexivity.
  - intros Hne. rewrite (Avg_nonempty scores Hne). cbn.
    rewrite (int_floor _ (arithmetic_mean_num_nonneg scores Hpos)).
    exists (Qfloor (arithmetic_mean scores)). split; [reflexivity |].
    split; [apply Qfloor_le |]. split; [apply Qlt_floor |].
    intros k Hk. rewrite Hk. apply Qfloor_Z.
Qed.

Lemma rating_is_truncated_mean_witness :
  exists r,
    ReadOnlyTitleSerializer.rating
      (ReadOnlyTitleSerializer.to_representation two_reviews
         (AnnotatedTitle.mk (Title.mk 1 "Solaris" 1972 "" (Some 1))
                            (Some (arithmetic_mean [7; 8]))))
    = Some r
    /\ (inject_Z r <= arithmetic_mean [7; 8]%Z)%Q
    /\ (arithmetic_mean [7; 8]%Z < inject_Z (r + 1))%Q
    /\ (forall k, (arithmetic_mean [7; 8]%Z == inject_Z k)%Q -> r = k).
Proof.
  refine (proj2 (rating_is_truncated_mean two_reviews
                   (AnnotatedTitle.mk (Title.mk 1 "Solaris" 1972 "" (Some 1))
                                      (Some (arithmetic_mean [7; 8])))
                   _ _) _).
  - left. reflexivity.
  - repeat constructor; discriminate.
  - discriminate.
Defined.

(** ** Title updates *)

(** What [update] does with the program's own lookup: the join rows of the
    title are deleted; a payload that supplies a genre then fails on the
    first one, before the title is saved; any other payload saves the
    title. *)
Lemma update_outcome (instance : Title.t)
    (d : TitleSerializer.ValidatedData Genre.t) (w : World) :
  let updated := TitleSerializer.setattrs instance d in
  let w1 := set_genre_titles (rows_of_others instance) w in
  TitleSerializer.update TitleSerializer.Genre_objects_get instance d w
  = match TitleSerializer.genre d with
    | Some (_ :: _) => (Raise TypeError, w1)
    | _ => (Ok updated, set_titles (saved updated) w1)
    end.
Proof.
  unfold TitleSerializer.update.
  destruct (TitleSerializer.genre d) as [[|g gs]|]; reflexivity.
Qed.

(** The title [solaris], which has one genre, is sent a new name and
    nothing else: it is renamed and loses its genre.  Sent the genre
    [scifi], which the slug field resolves to the row of the table, the
    update raises [TypeError]: the old join row is gone, no row is inserted
    and the title is not saved. *)
Lemma update_of_solaris :
  let rename := TitleSerializer.Build_ValidatedData
                  (Some "Solaris (1972)") None None None None in
  let retag := TitleSerializer.Build_ValidatedData
                 None None None None (Some [Genre.mk 2 "Sci-fi" "scifi"]) in
  let update := TitleSerializer.update TitleSerializer.Genre_objects_get in
  db_genre_titles two_reviews = [GenreTitle.mk 1 1]
  /\ fst (update solaris rename two_reviews)
     = Ok (Title.mk 1 "Solaris (1972)" 1972 "" (Some 1))
  /\ db_genre_titles (snd (update solaris rename two_reviews)) = []
  /\ fst (update solaris retag two_reviews) = Raise TypeError
  /\ db_genre_titles (snd (update solaris retag two_reviews)) = []
  /\ db_titles (snd (update solaris retag two_reviews)) = db_titles two_reviews.
Proof. cbv zeta. repeat split; reflexivity. Qed.

(** C1 (refuted, a defect of the code): whatever the payload, an update
    leaves the title without any join row: the rows of the title are
    deleted and none is inserted, the rows of other titles staying as they
    are.  A payload without the [genre] key, like one with an empty list,
    has its other fields written to the title, which is saved and
    returned, so omitting the field drops the title's genres.  A payload
    with at least one genre raises [TypeError] after the deletion: no fresh
    row is inserted and the title is not saved. *)
Theorem update_drops_genre_rows
    (instance : Title.t) (d : TitleSerializer.ValidatedData Genre.t)
    (w : World) :
  let updated := TitleSerializer.setattrs instance d in
  let run := TitleSerializer.update TitleSerializer.Genre_objects_get
               instance d w in
  db_genre_titles (snd run) = rows_of_others instance (db_genre_titles w)
  /\ (forall row, In row (db_genre_titles (snd run)) ->
                  GenreTitle.title_id row <> Title.id instance)
  /\ (TitleSerializer.genre d = None \/ TitleSerializer.genre d = Some [] ->
      fst run = Ok updated
      /\ db_titles (snd run) = saved updated (db_titles w))
  /\ (forall g gs, TitleSerializer.genre d = Some (g :: gs) ->
                   fst run = Raise TypeError
                   /\ db_titles (snd run) = db_titles w)
  /\ db_users (snd run) = db_users w /\ db_genres (snd run) = db_genres w
  /\ db_reviews (snd run) = db_reviews w
  /\ db_categories (snd run) = db_categories w
  /\ outbox (snd run) = outbox w.
Proof.
  intros updated run. subst run. rewrite update_outcome. fold updated.
  assert (R : forall row,
             In row (rows_of_others instance (db_genre_titles w)) ->
             GenreTitle.title_id row <> Title.id instance).
  { intros row Hin E. unfold rows_of_others in Hin.
    apply filter_In in Hin. destruct Hin as [_ Hin].
    rewrite E, Z.eqb_refl in Hin. discriminate Hin. }
  destruct (TitleSerializer.genre d) as [[|g gs]|];
    (split; [reflexivity |]); (split; [exact R |]);
    (split; [intros [F | F]; try discriminate F; split; reflexivity |]);
    (split; [intros g' gs' F; try discriminate F; split; reflexivity |]);
    repeat split.
Qed.

(** ** Token issuance *)

Lemma filter_none {A} (p : A -> bool) (l : list A) :
  (forall x, In x l -> p x = false) -> filter p l = [].
Proof.
  induction l as [|a l IH]; intros H; simpl; [reflexivity |].
  rewrite (H a (or_introl eq_refl)). apply IH. intros x Hx. apply H. right. exact Hx.
Qed.

(** A test that only rows with the key of [x] pass selects [x] alone when
    keys are unique. *)
Lemma filter_unique_key {A} (key : A -> string) (p : A -> bool)
    (l : list A) (x : A) :
  NoDup (map key l) -> In x l -> p x = true ->
  (forall y, In y l -> p y = true -> key y = key x) ->
  filter p l = [x].
Proof.
  induction l as [|a l IH]; intros Hnd Hin Hp Hkey; [contradiction |].
  simpl in Hnd. inversion Hnd as [|k ks Hnotin Hnd']; subst.
  destruct Hin as [-> | Hin].
  - simpl. rewrite Hp. f_equal. apply filter_none. intros y Hy.
    destruct (p y) eqn:E; [| reflexivity]. exfalso. apply Hnotin.
    rewrite <- (Hkey y (or_intror Hy) E). apply in_map. exact Hy.
  - simpl. destruct (p a) eqn:E.
    + exfalso. apply Hnotin. rewrite (Hkey a (or_introl eq_refl) E).
      apply in_map. exact Hin.
    + apply IH; try assumption. intros y Hy. apply Hkey. right. exact Hy.
Qed.

Lemma rows_named (w : World) (user : User.t) :
  unique_usernames w -> In user (db_users w) ->
  filter (fun u => (User.username u =? User.username user)%string) (db_users w)
  = [user].
Proof.
  intros Hnd Hin. apply (filter_unique_key User.username); try assumption.
  - apply String.eqb_refl.
  - intros y _ E. apply String.eqb_eq. exact E.
Qed.

Lemma rows_unnamed (w : World) (name : string) :
  (forall u, In u (db_users w) -> User.username u <> name) ->
  filter (fun u => (User.username u =? name)%string) (db_users w) = [].
Proof.
  intros H. apply filter_none. intros u Hu. apply String.eqb_neq. apply H, Hu.
Qed.

Lemma CharField_codes_accepted (raw : string) :
  accepted raw -> CharField_codes (Some raw) = [].
Proof.
  intros [Hb Hn]. unfold CharField_codes, null_characters.
  destruct (String.eqb_spec (strip raw) ""); [contradiction |].
  rewrite Hn. reflexivity.
Qed.

Lemma CharField_codes_refused (raw : string) :
  ~ accepted raw ->
  CharField_codes (Some raw) <> []
  /\ forall code, In code (CharField_codes (Some raw)) ->
                  code = "blank" \/ code = "null_characters_not_allowed".
Proof.
  intros H. unfold CharField_codes, null_characters.
  destruct (String.eqb_spec (strip raw) "") as [E | E].
  - split; [discriminate |]. intros code [<- | []]. left. reflexivity.
  - destruct (contains_nul (strip raw)) eqn:N.
    + split; [discriminate |]. intros code [<- | []]. right. reflexivity.
    + exfalso. apply H. split; assumption.
Qed.

Lemma accepted_dec (raw : string) : accepted raw \/ ~ accepted raw.
Proof.
  unfold accepted.
  destruct (String.eqb_spec (strip raw) "") as [E | E];
    [right; intros [F _]; contradiction |].
  destruct (contains_nul (strip raw));
    [right; intros [_ F]; discriminate F | left; split; [assumption | reflexivity]].
Qed.

Lemma run_fields_accepted (name code : string) :
  accepted name -> accepted code ->
  ObtainTokenSerializer.run_fields (TokenRequest.mk (Some name) (Some code))
  = Ok {| ObtainTokenSerializer.username := strip name;
          ObtainTokenSerializer.confirmation_code := strip code |}.
Proof.
  intros Hn Hc. unfold ObtainTokenSerializer.run_fields.
  cbn [TokenRequest.username TokenRequest.confirmation_code].
  rewrite (CharField_codes_accepted name Hn), (CharField_codes_accepted code Hc).
  reflexivity.
Qed.

Lemma run_fields_refused (name code : string) :
  ~ (accepted name /\ accepted code) ->
  exists errors,
    errors <> []
    /\ (forall field c,
           In (field, c) errors ->
           (field = "username" /\ ~ accepted name
            \/ field = "confirmation_code" /\ ~ accepted code)
           /\ (c = "blank" \/ c = "null_characters_not_allowed"))
    /\ ObtainTokenSerializer.run_fields
         (TokenRequest.mk (Some name) (Some code))
       = Raise (ValidationError errors).
Proof.
  intros H. unfold ObtainTokenSerializer.run_fields.
  cbn [TokenRequest.username TokenRequest.confirmation_code].
  set (errors := (field_errors "username" (CharField_codes (Some name))
                  ++ field_errors "confirmation_code"
                       (CharField_codes (Some code)))%list).
  assert (Hne : errors <> []).
  { destruct (accepted_dec name) as [Hn | Hn].
    - destruct (accepted_dec code) as [Hc | Hc]; [exfalso; apply H; split; assumption |].
      destruct (CharField_codes_refused code Hc) as [Hc' _]. subst errors.
      destruct (CharField_codes (Some code)); [contradiction |].
      intros F. apply app_eq_nil in F. destruct F as [_ F]. discriminate F.
    - destruct (CharField_codes_refused name Hn) as [Hn' _]. subst errors.
      destruct (CharField_codes (Some name)); [contradiction |].
      intros F. apply app_eq_nil in F. destruct F as [F _]. discriminate F. }
  exists errors. split; [exact Hne |]. split.
  - intros field c Hin. subst errors. apply in_app_or in Hin.
    unfold field_errors in Hin.
    destruct Hin as [Hin | Hin]; apply in_map_iff in Hin;
      destruct Hin as [c' [E Hin]]; inversion E; subst.
    + destruct (accepted_dec name) as [Hn | Hn].
      * rewrite (CharField_codes_accepted name Hn) in Hin. contradiction.
      * split; [left; split; [reflexivity | exact Hn] |].
        apply (proj2 (CharField_codes_refused name Hn)). exact Hin.
    + destruct (accepted_dec code) as [Hc | Hc].
      * rewrite (CharField_codes_accepted code Hc) in Hin. contradiction.
      * split; [right; split; [reflexivity | exact Hc] |].
        apply (proj2 (CharField_codes_refused code Hc)). exact Hin.
  - destruct errors; [contradiction | reflexivity].
Qed.

(** C5 (as stated, refuted): the supplied code is not compared with the
    stored one as it is.  A request for [alice] whose code is hers followed
    by a space differs from the stored code and is answered with a token;
    a request for a name no user has, with a code of one space, is
    answered with a validation error, not with a not-found. *)
Lemma token_code_is_stripped_first :
  In alice (db_users two_reviews)
  /\ User.username alice = "alice"
  /\ User.confirmation_code alice <> "code-alice "
  /\ fst (ObtainTokenView.post
            (TokenRequest.mk (Some "alice") (Some "code-alice ")) two_reviews)
     = Ok (Build_Response {| token_type := "access"; user_id := 1 |} 200)
  /\ (forall u, In u (db_users two_reviews) -> User.username u <> "nobody")
  /\ fst (ObtainTokenView.post
            (TokenRequest.mk (Some "nobody") (Some " ")) two_reviews)
     = Raise (ValidationError [("confirmation_code", "blank")]).
Proof.
  split; [left; reflexivity |]. split; [reflexivity |].
  split; [discriminate |]. split; [reflexivity |].
  split; [| reflexivity].
  intros u [<- | [<- | []]]; discriminate.
Qed.

(** C5 (amended): a token request carries a username and a confirmation
    code, and both are stripped of surrounding whitespace first.  If one of
    them is then empty or holds a null character, the request fails with a
    [ValidationError] (status 400) on that field.  Otherwise it fails with
    [Http404] (status 404) when no user has the stripped username, fails
    with a [ValidationError] (status 400) when the user's stored code is
    not the stripped code, and otherwise answers 200 with an access token
    whose [user_id] is the user's key. *)
Theorem token_request_outcomes (w : World) (name code : string) :
  unique_usernames w ->
  let out := fst (ObtainTokenView.post (TokenRequest.mk (Some name) (Some code)) w) in
  (~ (accepted name /\ accepted code) ->
   exists errors,
     errors <> []
     /\ (forall field c,
            In (field, c) errors ->
            (field = "username" /\ ~ accepted name
             \/ field = "confirmation_code" /\ ~ accepted code)
            /\ (c = "blank" \/ c = "null_characters_not_allowed"))
     /\ out = Raise (ValidationError errors) /\ http_status out = 400)
  /\ (accepted name -> accepted code ->
      ((forall u, In u (db_users w) -> User.username u <> strip name) ->
       out = Raise Http404 /\ http_status out = 404)
      /\ (forall user,
             In user (db_users w) -> User.username user = strip name ->
             User.confirmation_code user <> strip code ->
             out = Raise (ValidationError [("non_field_errors", "invalid")])
             /\ http_status out = 400)
      /\ (forall user,
             In user (db_users w) -> User.username user = strip name ->
             User.confirmation_code user = strip code ->
             out = Ok (Build_Response
                         {| token_type := "access"; user_id := User.id user |} 200)
             /\ http_status out = 200)).
Proof.
  intros Hnd out. subst out. unfold ObtainTokenView.post, gets, lift.
  cbn [bind ret Monad_M]. unfold ObtainTokenSerializer.is_valid.
  split.
  - intros H. destruct (run_fields_refused name code H) as [errors [Hne [Hin E]]].
    exists errors. rewrite E. cbn.
    split; [exact Hne |]. split; [exact Hin |]. split; reflexivity.
  - intros Hn Hc. rewrite (run_fields_accepted name code Hn Hc).
    unfold ObtainTokenSerializer.validate. cbn -[strip].
    split; [| split].
    + intros Hno. rewrite (rows_unnamed w (strip name) Hno). split; reflexivity.
    + intros row Hin E Hcode. rewrite <- E. rewrite (rows_named w row Hnd Hin).
      cbn -[strip].
      destruct (String.eqb_spec (strip code) (User.confirmation_code row)) as [E' | E'];
        [symmetry in E'; contradiction | split; reflexivity].
    + intros row Hin E Hcode. rewrite <- E, <- Hcode.
      rewrite (rows_named w row Hnd Hin). cbn.
      rewrite String.eqb_refl. cbn. rewrite (rows_named w row Hnd Hin).
      split; reflexivity.
Qed.

Lemma two_reviews_unique_usernames : unique_usernames two_reviews.
Proof.
  unfold unique_usernames. cbn. repeat constructor; cbn; intuition discriminate.
Defined.

Lemma token_request_outcomes_witness :
  fst (ObtainTokenView.post
         (TokenRequest.mk (Some " alice") (Some "code-alice ")) two_reviews)
  = Ok (Build_Response {| token_type := "access"; user_id := 1 |} 200)
  /\ fst (ObtainTokenView.post
            (TokenRequest.mk (Some "alice") (Some "code-bob")) two_reviews)
     = Raise (ValidationError [("non_field_errors", "invalid")]).
Proof.
  split.
  - refine (proj1 (proj2 (proj2 (proj2 (token_request_outcomes
                                   two_reviews " alice" "code-alice "
                                   two_reviews_unique_usernames) _ _))
                     alice _ _ _)).
    + split; [discriminate | reflexivity].
    + split; [discriminate | reflexivity].
    + left. reflexivity.
    + reflexivity.
    + reflexivity.
  - refine (proj1 (proj1 (proj2 (proj2 (token_request_outcomes
                                   two_reviews "alice" "code-bob"
                                   two_reviews_unique_usernames) _ _))
                     alice _ _ _)).
    + split; [discriminate | reflexivity].
    + split; [discriminate | reflexivity].
    + left. reflexivity.
    + reflexivity.
    + discriminate.
Defined.

(** The token endpoint only reads. *)
Lemma post_keeps_world (d : TokenRequest.t) (w : World) :
  snd (ObtainTokenView.post d w) = w.
Proof.
  unfold ObtainTokenView.post, gets, lift. cbn [bind ret Monad_M].
  destruct (ObtainTokenSerializer.is_valid (db_users w) d) as [data | e];
    [| reflexivity].
  destruct (get_object_or_404 _) as [row | e]; reflexivity.
Qed.

(** C9: a token request that succeeds leaves the world, and with it every
    stored confirmation code, as it was, so the same request succeeds again
    with a token for the same user. *)
Theorem token_issue_keeps_code
    (d : TokenRequest.t) (w w' : World) (resp : Response AccessToken) :
  ObtainTokenView.post d w = (Ok resp, w') ->
  w' = w
  /\ map User.confirmation_code (db_users w')
     = map User.confirmation_code (db_users w)
  /\ ObtainTokenView.post d w' = (Ok resp, w').
Proof.
  intros H. pose proof (post_keeps_world d w) as K. rewrite H in K.
  simpl in K. subst w'. repeat split. exact H.
Qed.

Lemma token_issue_keeps_code_witness :
  let d := TokenRequest.mk (Some "bob") (Some "code-bob") in
  let resp := Build_Response {| token_type := "access"; user_id := 2 |} 200 in
  ObtainTokenView.post d two_reviews = (Ok resp, two_reviews)
  /\ ObtainTokenView.post d (snd (ObtainTokenView.post d two_reviews))
     = (Ok resp, two_reviews).
Proof.
  intros d resp.
  assert (H : ObtainTokenView.post d two_reviews = (Ok resp, two_reviews))
    by reflexivity.
  split; [exact H |].
  exact (proj2 (proj2 (token_issue_keeps_code d two_reviews two_reviews resp H))).
Defined.

(** ** Registration *)

Section Registration.
Variable EmailValidator : string -> bool.

Lemma resend_no_username (d : RegisterRequest.t) (w : World) :
  RegisterRequest.username d = None ->
  RegisterViewSet.resend d w = (Raise (KeyError "username"), w).
Proof.
  intros H. unfold RegisterViewSet.resend, lift, RegisterRequest.getitem.
  cbn. rewrite H. reflexivity.
Qed.

Lemma resend_no_email (d : RegisterRequest.t) (w : World) (name : string) :
  RegisterRequest.username d = Some name ->
  RegisterRequest.email d = None ->
  RegisterViewSet.resend d w = (Raise (KeyError "email"), w).
Proof.
  intros H1 H2. unfold RegisterViewSet.resend, lift, RegisterRequest.getitem.
  cbn. rewrite H1, H2. reflexivity.
Qed.

Lemma resend_no_match (d : RegisterRequest.t) (w : World) (name mail : string) :
  RegisterRequest.username d = Some name ->
  RegisterRequest.email d = Some mail ->
  exact_matches w name mail = [] ->
  RegisterViewSet.resend d w = (Raise IndexError, w).
Proof.
  intros H1 H2 H3.
  unfold RegisterViewSet.resend, lift, gets, RegisterRequest.getitem.
  cbn. rewrite H1, H2. cbn. unfold exact_matches in H3. rewrite H3. reflexivity.
Qed.

Lemma resend_match (d : RegisterRequest.t) (w : World) (name mail : string)
    (row : User.t) (rest : list User.t) :
  RegisterRequest.username d = Some name ->
  RegisterRequest.email d = Some mail ->
  exact_matches w name mail = row :: rest ->
  RegisterViewSet.resend d w
  = if smtp_up w
    then (Ok (Build_Response d 200),
          set_outbox
            (fun o => (o ++ [code_mail (User.confirmation_code row) mail])%list)
            w)
    else (Raise SMTPException, w).
Proof.
  intros H1 H2 H3.
  unfold RegisterViewSet.resend, lift, gets, RegisterRequest.getitem.
  cbn. rewrite H1, H2. cbn. unfold exact_matches in H3. rewrite H3. cbn.
  unfold send_mail. destruct (smtp_up w); reflexivity.
Qed.

(** Whatever [resend] raises is an [Exception], and it is raised before
    anything was written. *)
Lemma resend_raise (d : RegisterRequest.t) (w w' : World) (e : exn) :
  RegisterViewSet.resend d w = (Raise e, w') ->
  w' = w
  /\ (e = KeyError "username" \/ e = KeyError "email" \/ e = IndexError
      \/ e = SMTPException).
Proof.
  destruct (RegisterRequest.username d) as [name|] eqn:H1.
  2: { rewrite (resend_no_username d w H1). intros E. injection E as <- <-. auto. }
  destruct (RegisterRequest.email d) as [mail|] eqn:H2.
  2: { rewrite (resend_no_email d w name H1 H2). intros E.
       injection E as <- <-. auto. }
  destruct (exact_matches w name mail) as [|row rest] eqn:H3.
  { rewrite (resend_no_match d w name mail H1 H2 H3). intros E.
    injection E as <- <-. auto. }
  rewrite (resend_match d w name mail row rest H1 H2 H3).
  destruct (smtp_up w); intros E; [discriminate E |].
  injection E as <- <-. auto 6.
Qed.
End Registration.

(** C10: every exception the resend branch raises is an [Exception] and is
    caught: the endpoint then answers what the validate-and-create path
    answers, run on the world as the branch found it.  A missing [username]
    or [email] key raises [KeyError] there, and a transport failure after a
    successful lookup raises [SMTPException]; both fall through.  When the
    branch returns, its response is the endpoint's. *)
Theorem resend_errors_fall_through
    (EmailValidator : string -> bool) (d : RegisterRequest.t) (w : World) :
  (forall e w',
      RegisterViewSet.resend d w = (Raise e, w') ->
      is_Exception e = true
      /\ w' = w
      /\ RegisterViewSet.create EmailValidator d w
         = RegisterViewSet.validate_and_create EmailValidator d w)
  /\ (RegisterRequest.username d = None \/ RegisterRequest.email d = None ->
      exists key, RegisterViewSet.resend d w = (Raise (KeyError key), w))
  /\ (forall name mail row rest,
         RegisterRequest.username d = Some name ->
         RegisterRequest.email d = Some mail ->
         exact_matches w name mail = row :: rest ->
         smtp_up w = false ->
         RegisterViewSet.resend d w = (Raise SMTPException, w))
  /\ (forall resp w',
         RegisterViewSet.resend d w = (Ok resp, w') ->
         RegisterViewSet.create EmailValidator d w = (Ok resp, w')).
Proof.
  split; [| split; [| split]].
  - intros e w' H. destruct (resend_raise d w w' e H) as [-> K].
    assert (Ex : is_Exception e = true)
      by (destruct K as [-> | [-> | [-> | ->]]]; reflexivity).
    repeat split; [exact Ex |].
    unfold RegisterViewSet.create, try_except_Exception. cbn [catch Exc_M].
    rewrite H, Ex. reflexivity.
  - intros H. destruct (RegisterRequest.username d) as [name|] eqn:H1.
    + destruct H as [H | H]; [discriminate H |].
      exists "email". exact (resend_no_email d w name H1 H).
    + exists "username". exact (resend_no_username d w H1).
  - intros name mail row rest H1 H2 H3 H4.
    rewrite (resend_match d w name mail row rest H1 H2 H3), H4. reflexivity.
  - intros resp w' H.
    unfold RegisterViewSet.create, try_except_Exception. cbn [catch Exc_M].
    rewrite H. reflexivity.
Qed.

Lemma resend_errors_fall_through_witness :
  let d := RegisterRequest.mk (Some "alice") (Some "alice@yamdb.ru") in
  RegisterViewSet.resend d mail_down = (Raise SMTPException, mail_down)
  /\ RegisterViewSet.create (fun _ => true) d mail_down
     = RegisterViewSet.validate_and_create (fun _ => true) d mail_down
  /\ RegisterViewSet.create (fun _ => true) d mail_down
     = (Raise (ValidationError [("email", "unique"); ("username", "unique")]),
        mail_down).
Proof.
  intros d.
  pose proof (resend_errors_fall_through (fun _ => true) d mail_down)
    as [Hraise [_ [Hsmtp _]]].
  assert (H : RegisterViewSet.resend d mail_down = (Raise SMTPException, mail_down))
    by (apply (Hsmtp "alice" "alice@yamdb.ru" alice []); reflexivity).
  destruct (Hraise SMTPException mail_down H) as [_ [_ K]].
  split; [exact H |]. split; [exact K |]. rewrite K. reflexivity.
Defined.

Section RegistrationOutcomes.
Variable EmailValidator : string -> bool.

Lemma create_falls_through (d : RegisterRequest.t) (w : World) (e : exn) :
  RegisterViewSet.resend d w = (Raise e, w) ->
  is_Exception e = true ->
  RegisterViewSet.create EmailValidator d w
  = RegisterViewSet.validate_and_create EmailValidator d w.
Proof.
  intros H Ex. unfold RegisterViewSet.create, try_except_Exception.
  cbn [catch Exc_M]. rewrite H, Ex. reflexivity.
Qed.

Lemma validate_and_create_invalid (d : RegisterRequest.t) (w : World) (e : exn) :
  RegisterSerializer.is_valid EmailValidator (db_users w) d = Raise e ->
  RegisterViewSet.validate_and_create EmailValidator d w = (Raise e, w).
Proof.
  intros H. unfold RegisterViewSet.validate_and_create, gets, lift.
  cbn [bind Monad_M]. rewrite H. reflexivity.
Qed.

Lemma validate_and_create_valid (d : RegisterRequest.t) (w : World)
    (attrs : RegisterSerializer.ValidatedData) :
  RegisterSerializer.is_valid EmailValidator (db_users w) d = Ok attrs ->
  let new := new_user w attrs in
  let w1 := set_users (fun rows => (rows ++ [new])%list) (set_draws S w) in
  RegisterViewSet.validate_and_create EmailValidator d w
  = if smtp_up w
    then (Ok (Build_Response (RegisterSerializer.to_representation new) 200),
          set_outbox
            (fun o =>
               (o ++ [code_mail (random w (draws w))
                                (RegisterSerializer.email attrs)])%list) w1)
    else (Raise SMTPException, w1).
Proof.
  intros H new w1. unfold RegisterViewSet.validate_and_create, gets, lift.
  cbn [bind Monad_M]. rewrite H.
  unfold RegisterViewSet.perform_create, uuid4, gets, modify, send_mail.
  cbn. destruct (smtp_up w); reflexivity.
Qed.


(** When the fields of a registration raise no error. *)
Lemma email_codes_nil (rows : list User.t) (raw : string) :
  RegisterSerializer.email_codes EmailValidator rows (Some raw) = []
  <-> accepted raw
      /\ existsb (fun u => (User.email u =? strip raw)%string) rows = false
      /\ (254 <? String.length (strip raw))%nat = false
      /\ EmailValidator (strip raw) = true.
Proof.
  unfold RegisterSerializer.email_codes, accepted, null_characters. cbv zeta.
  destruct (String.eqb_spec (strip raw) "") as [E | E];
    [split; [intros F; discriminate F | intros [[F _] _]; contradiction] |].
  destruct (existsb _ rows); destruct (254 <? String.length (strip raw))%nat;
    destruct (contains_nul (strip raw)); destruct (EmailValidator (strip raw));
    cbn [app];
    (split;
     [intros H; try discriminate H; repeat split; assumption || reflexivity
     | intros [[_ H1] [H2 [H3 H4]]]; try discriminate; reflexivity]).
Qed.

Lemma username_codes_nil (rows : list User.t) (raw : string) :
  RegisterSerializer.username_codes rows (Some raw) = []
  <-> accepted raw
      /\ existsb (fun u => (User.username u =? strip raw)%string) rows = false
      /\ (25 <? String.length (strip raw))%nat = false
      /\ strip raw <> "me".
Proof.
  unfold RegisterSerializer.username_codes, accepted, null_characters,
    RegisterSerializer.validate_username.
  cbv zeta.
  destruct (String.eqb_spec (strip raw) "") as [E | E];
    [split; [intros F; discriminate F | intros [[F _] _]; contradiction] |].
  destruct (existsb _ rows); destruct (25 <? String.length (strip raw))%nat;
    destruct (contains_nul (strip raw));
    destruct (String.eqb_spec (strip raw) "me") as [M | M];
    cbn [app];
    (split;
     [intros H; try discriminate H; repeat split; assumption || reflexivity
     | intros [[_ H1] [H2 [H3 H4]]]; try discriminate; try contradiction;
       reflexivity]).
Qed.


End RegistrationOutcomes.




(** ** One review per author and title *)

(** What creating a review comes to for a logged-in caller. *)
Lemma review_create_run (rule : OrObjectRule) (m : string) (author : User.t)
    (title_id : Z) (d : ReviewRequest.t) (w : World) :
  ReviewViewSet.create rule (request_of m author) title_id d w
  = match get_object_or_404
            (filter (fun t => Title.id t =? title_id) (db_titles w)) with
    | Raise e => (Raise e, w)
    | Ok title =>
        match (field_errors "text"
                 (ReviewSerializer.text_codes (ReviewRequest.text d))
               ++ field_errors "score"
                    (ReviewSerializer.score_codes (ReviewRequest.score d)))%list,
              ReviewRequest.text d, ReviewRequest.score d with
        | [], Some t, Some s =>
            if existsb (fun r => (Review.author_id r =? User.id author)
                                 && (Review.title_id r =? Title.id title))
                       (db_reviews w)
            then (Raise (ValidationError [("non_field_errors", "unique")]), w)
            else (Ok (Build_Response (new_review w (strip t) s title author) 201),
                  set_reviews
                    (fun rows =>
                       (rows ++ [new_review w (strip t) s title author])%list) w)
        | errors, _, _ => (Raise (ValidationError errors), w)
        end
    end.
Proof.
  unfold ReviewViewSet.create, ReviewViewSet.get_permissions. cbn -[filter].
  unfold ReviewSerializer.is_valid, CreateTitleDefault, gets, lift.
  cbn -[filter field_errors ReviewSerializer.text_codes
        ReviewSerializer.score_codes app strip].
  destruct (get_object_or_404 _) as [title | e] eqn:T; [| reflexivity].
  destruct (_ ++ _)%list as [|err errs]; [| destruct rule; reflexivity].
  destruct (ReviewRequest.text d) as [t|]; [| destruct rule; reflexivity].
  destruct (ReviewRequest.score d) as [s|]; [| destruct rule; reflexivity].
  unfold ReviewSerializer.unique_together. cbn -[filter strip].
  destruct (existsb _ (db_reviews w)); cbn -[filter strip];
    [destruct rule; reflexivity |].
  unfold ReviewViewSet.perform_create, gets, lift. cbn -[filter strip].
  rewrite T. destruct rule; reflexivity.
Qed.

Lemma score_codes_in_range (s : Z) :
  1 <= s <= 10 -> ReviewSerializer.score_codes (Some s) = [].
Proof.
  intros H. unfold ReviewSerializer.score_codes.
  destruct (Z.ltb_spec s 1); [lia |]. destruct (Z.ltb_spec 10 s); [lia |].
  reflexivity.
Qed.

Lemma pair_taken (w : World) (author : User.t) (title : Title.t) :
  existsb (fun r => (Review.author_id r =? User.id author)
                    && (Review.title_id r =? Title.id title))
          (db_reviews w) = true
  <-> exists r, In r (db_reviews w)
                /\ Review.author_id r = User.id author
                /\ Review.title_id r = Title.id title.
Proof.
  rewrite existsb_exists. split; intros [r [Hin H]]; exists r; (split; [exact Hin |]).
  - apply andb_prop in H. destruct H as [A T].
    split; apply Z.eqb_eq; assumption.
  - destruct H as [-> ->]. rewrite !Z.eqb_refl. reflexivity.
Qed.




(** * Further properties of the modelled code *)

(** ** Who may write to the catalogue and to the users *)

Ltac split_policy_tests :=
  repeat match goal with
         | |- context [String.eqb ?a ?b] => destruct (String.eqb_spec a b)
         | |- context [User.is_superuser ?u] =>
             destruct (User.is_superuser u) eqn:?
         | |- context [in_strings ?m SAFE_METHODS] =>
             destruct (in_strings m SAFE_METHODS) eqn:?
         end; cbn -[in_strings].

Lemma catalogue_policy {O} (rule : OrObjectRule) (request : Request) (obj : O) :
  let policy :=
    [OR rule (AND IsAuthenticated (OR rule IsAdmin IsSuperuser)) IsReadOnly] in
  (authorize policy request obj = Ok tt
   <-> is_safe request = true \/ privileged request)
  /\ (is_safe request = false -> user request = AnonymousUser ->
      authorize policy request obj = Raise NotAuthenticated)
  /\ (is_safe request = false -> is_authenticated (user request) = true ->
      ~ privileged request ->
      authorize policy request obj = Raise PermissionDenied).
Proof.
  unfold privileged, is_safe. destruct request as [m [|u]]; cbn -[in_strings].
  - destruct rule; cbn -[in_strings]; destruct (in_strings m SAFE_METHODS); cbn;
      (split; [split | split]);
      try reflexivity; try discriminate; auto;
      try (intros [F | [u [F _]]]; discriminate F).
  - destruct rule; cbn -[in_strings]; unfold role_is; cbn -[in_strings];
      split_policy_tests;
      (split; [split | split]);
      try reflexivity; try discriminate; auto;
      try (intros _; right; exists u; split; [reflexivity | auto]);
      try (intros [F | [u' [E D]]];
           [discriminate F
           | injection E as <-; destruct D as [D | D]; congruence]);
      try (intros _ _ N; exfalso; apply N; exists u;
           split; [reflexivity | auto]).
Qed.

(** X1: titles, categories and genres are open to every request with a safe
    method and otherwise only to logged-in admins and superusers, under
    either object rule of [OR]; an anonymous writer gets [NotAuthenticated]
    and any other logged-in writer, a moderator included, gets
    [PermissionDenied]. *)
Theorem catalogue_writes_need_admin
    (O : Type) (rule : OrObjectRule) (request : Request) (obj : O) :
  (authorize (TitleViewSet.permission_classes rule) request obj = Ok tt
   <-> is_safe request = true \/ privileged request)
  /\ (authorize (SlugNameViewSet.permission_classes rule) request obj = Ok tt
      <-> is_safe request = true \/ privileged request)
  /\ (is_safe request = false -> user request = AnonymousUser ->
      authorize (TitleViewSet.permission_classes rule) request obj
      = Raise NotAuthenticated
      /\ authorize (SlugNameViewSet.permission_classes rule) request obj
         = Raise NotAuthenticated)
  /\ (is_safe request = false -> is_authenticated (user request) = true ->
      ~ privileged request ->
      authorize (TitleViewSet.permission_classes rule) request obj
      = Raise PermissionDenied
      /\ authorize (SlugNameViewSet.permission_classes rule) request obj
         = Raise PermissionDenied).
Proof.
  destruct (catalogue_policy rule request obj) as [G [A D]].
  split; [exact G |]. split; [exact G |]. split.
  - intros Hs Hu. split; exact (A Hs Hu).
  - intros Hs Hu Hn. split; exact (D Hs Hu Hn).
Qed.

Lemma carol_is_not_privileged (m : string) : ~ privileged (request_of m carol).
Proof.
  intros [u [E D]]. injection E as <-. destruct D as [D | D]; discriminate D.
Qed.

Lemma catalogue_writes_need_admin_witness :
  authorize (TitleViewSet.permission_classes OrEither)
            (request_of "PATCH" carol) solaris
  = Raise PermissionDenied
  /\ authorize (SlugNameViewSet.permission_classes OrGuarded)
               {| method := "DELETE"; user := AnonymousUser |}
               (Genre.mk 1 "Drama" "drama")
     = Raise NotAuthenticated.
Proof.
  split.
  - refine (proj1 (proj2 (proj2 (proj2 (catalogue_writes_need_admin
                                          Title.t OrEither
                                          (request_of "PATCH" carol) solaris)))
                     eq_refl eq_refl (carol_is_not_privileged "PATCH"))).
  - refine (proj2 (proj1 (proj2 (proj2 (catalogue_writes_need_admin
                                          Genre.t OrGuarded
                                          {| method := "DELETE";
                                             user := AnonymousUser |}
                                          (Genre.mk 1 "Drama" "drama"))))
                     eq_refl eq_refl)).
Defined.

(** X2: the user administration is open to logged-in admins and superusers
    and to nobody else, whatever the method: reading the users is refused as
    writing is. *)
Theorem users_are_managed_by_admins_only
    (O : Type) (rule : OrObjectRule) (request : Request) (obj : O) :
  (authorize (UsersManageViewSet.permission_classes rule) request obj = Ok tt
   <-> privileged request)
  /\ (user request = AnonymousUser ->
      authorize (UsersManageViewSet.permission_classes rule) request obj
      = Raise NotAuthenticated)
  /\ (is_authenticated (user request) = true -> ~ privileged request ->
      authorize (UsersManageViewSet.permission_classes rule) request obj
      = Raise PermissionDenied).
Proof.
  unfold privileged. destruct request as [m [|u]]; cbn -[in_strings].
  - split; [split; [discriminate | intros [u [F _]]; discriminate F] |].
    split; [reflexivity | discriminate].
  - destruct rule; cbn; unfold role_is; cbn; split_policy_tests;
      (split; [split | split]);
      try reflexivity; try discriminate; auto;
      try (intros _; exists u; split; [reflexivity | auto]);
      try (intros [u' [E D]]; injection E as <-;
           destruct D as [D | D]; congruence);
      try (intros _ N; exfalso; apply N; exists u;
           split; [reflexivity | auto]).
Qed.

Lemma users_are_managed_by_admins_only_witness :
  authorize (UsersManageViewSet.permission_classes OrEither)
            (request_of "GET" carol) alice
  = Raise PermissionDenied.
Proof.
  exact (proj2 (proj2 (users_are_managed_by_admins_only
                         User.t OrEither (request_of "GET" carol) alice))
           eq_refl (carol_is_not_privileged "GET")).
Defined.

Lemma reader_policy {O} `{Authored O} (rule : OrObjectRule)
    (request : Request) (obj : O) :
  let policy := [OR rule (AND IsAuthenticated IsAuthor) IsReadOnly] in
  (check_permissions policy request = Ok tt
   <-> is_safe request = true \/ is_authenticated (user request) = true)
  /\ (is_safe request = true -> authorize policy request obj = Ok tt)
  /\ (is_safe request = false -> user request = AnonymousUser ->
      check_permissions policy request = Raise NotAuthenticated).
Proof.
  unfold is_safe. destruct request as [m [|u]]; cbn -[in_strings];
    destruct rule; cbn -[in_strings];
    destruct (in_strings m SAFE_METHODS); cbn;
    try destruct (author_id obj =? User.id u); cbn;
    (split; [split | split]); intros; try reflexivity; try discriminate; auto;
    try (destruct H0 as [F | F]; discriminate F);
    try (destruct H1 as [F | F]; discriminate F).
Qed.

(** X3: outside [partial_update] and [destroy], the list-level check of the
    review and comment routes passes exactly for safe methods and for
    logged-in callers, so that reading is public and posting needs a login;
    with a safe method the object-level check passes as well, whoever the
    author is. *)
Theorem reviews_and_comments_are_public_to_read
    (rule : OrObjectRule) (action : Action.t) (request : Request)
    (review : Review.t) (comment : Comment.t) :
  in_strings (Action.name action) ["partial_update"; "destroy"] = false ->
  (check_permissions (ReviewViewSet.get_permissions rule action) request = Ok tt
   <-> is_safe request = true \/ is_authenticated (user request) = true)
  /\ (check_permissions (CommentViewSet.get_permissions rule action) request
      = Ok tt
      <-> is_safe request = true \/ is_authenticated (user request) = true)
  /\ (is_safe request = true ->
      authorize (ReviewViewSet.get_permissions rule action) request review
      = Ok tt
      /\ authorize (CommentViewSet.get_permissions rule action) request comment
         = Ok tt)
  /\ (is_safe request = false -> user request = AnonymousUser ->
      check_permissions (ReviewViewSet.get_permissions rule action) request
      = Raise NotAuthenticated
      /\ check_permissions (CommentViewSet.get_permissions rule action) request
         = Raise NotAuthenticated).
Proof.
  intros H. unfold ReviewViewSet.get_permissions, CommentViewSet.get_permissions.
  rewrite H.
  destruct (reader_policy rule request review) as [R1 [R2 R3]].
  destruct (reader_policy rule request comment) as [C1 [C2 C3]].
  split; [exact R1 |]. split; [exact C1 |]. split.
  - intros Hs. split; [exact (R2 Hs) | exact (C2 Hs)].
  - intros Hs Hu. split; [exact (R3 Hs Hu) | exact (C3 Hs Hu)].
Qed.

Lemma reviews_and_comments_are_public_to_read_witness :
  authorize (ReviewViewSet.get_permissions OrGuarded Action.retrieve)
            {| method := "GET"; user := AnonymousUser |} alice_review
  = Ok tt
  /\ check_permissions (CommentViewSet.get_permissions OrEither Action.create)
                       {| method := "POST"; user := AnonymousUser |}
     = Raise NotAuthenticated.
Proof.
  split.
  - exact (proj1 (proj1 (proj2 (proj2
             (reviews_and_comments_are_public_to_read
                OrGuarded Action.retrieve
                {| method := "GET"; user := AnonymousUser |}
                alice_review alice_comment eq_refl))) eq_refl)).
  - exact (proj2 (proj2 (proj2 (proj2
             (reviews_and_comments_are_public_to_read
                OrEither Action.create
                {| method := "POST"; user := AnonymousUser |}
                alice_review alice_comment eq_refl))) eq_refl eq_refl)).
Defined.

(** ** Token requests without a field *)

Lemma CharField_codes_of_value (raw code : string) :
  In code (CharField_codes (Some raw)) ->
  code = "blank" \/ code = "null_characters_not_allowed".
Proof.
  unfold CharField_codes, null_characters.
  destruct (strip raw =? "")%string; [intros [<- | []]; left; reflexivity |].
  destruct (contains_nul (strip raw)); [| intros []].
  intros [<- | []]. right. reflexivity.
Qed.

Lemma required_means_missing (field : string) (value : option string) :
  In (field, "required") (field_errors field (CharField_codes value))
  <-> value = None.
Proof.
  destruct value as [raw|]; split; intros H.
  - exfalso. apply in_map_iff in H. destruct H as [c [E Hin]].
    injection E as ->.
    destruct (CharField_codes_of_value raw _ Hin) as [F | F]; discriminate F.
  - discriminate H.
  - reflexivity.
  - left. reflexivity.
Qed.

Lemma field_errors_field (field field' code : string) (codes : list string) :
  In (field', code) (field_errors field codes) -> field' = field.
Proof.
  intros H. apply in_map_iff in H. destruct H as [c [E _]]. congruence.
Qed.

(** X4: a token request that lacks a field is refused with a validation error
    (status 400) that marks exactly the missing fields as required, and
    nothing is looked up or changed: an unknown username does not turn it
    into a 404. *)
Theorem token_request_needs_both_fields (d : TokenRequest.t) (w : World) :
  TokenRequest.username d = None \/ TokenRequest.confirmation_code d = None ->
  exists errors,
    ObtainTokenView.post d w = (Raise (ValidationError errors), w)
    /\ http_status (fst (ObtainTokenView.post d w)) = 400
    /\ (In ("username", "required") errors <-> TokenRequest.username d = None)
    /\ (In ("confirmation_code", "required") errors
        <-> TokenRequest.confirmation_code d = None).
Proof.
  intros H.
  pose (errors :=
          (field_errors "username" (CharField_codes (TokenRequest.username d))
           ++ field_errors "confirmation_code"
                (CharField_codes (TokenRequest.confirmation_code d)))%list).
  assert (Hu : In ("username", "required") errors
               <-> TokenRequest.username d = None).
  { unfold errors. rewrite in_app_iff, required_means_missing. split.
    - intros [K | K]; [exact K |].
      apply field_errors_field in K. discriminate K.
    - intros K. left. exact K. }
  assert (Hc : In ("confirmation_code", "required") errors
               <-> TokenRequest.confirmation_code d = None).
  { unfold errors. rewrite in_app_iff, required_means_missing. split.
    - intros [K | K]; [| exact K].
      apply field_errors_field in K. discriminate K.
    - intros K. right. exact K. }
  assert (Hpost : ObtainTokenView.post d w = (Raise (ValidationError errors), w)).
  { unfold ObtainTokenView.post, gets, lift, ObtainTokenSerializer.is_valid,
      ObtainTokenSerializer.run_fields.
    cbn [bind ret Monad_M Monad_result]. fold errors.
    destruct errors as [|err errs]; [| reflexivity].
    exfalso. destruct H as [H | H]; [apply Hu in H | apply Hc in H]; exact H. }
  exists errors. rewrite Hpost.
  split; [reflexivity |]. split; [reflexivity |]. split; assumption.
Qed.

Lemma token_request_needs_both_fields_witness :
  exists errors,
    ObtainTokenView.post (TokenRequest.mk (Some "nobody") None) two_reviews
    = (Raise (ValidationError errors), two_reviews)
    /\ In ("confirmation_code", "required") errors.
Proof.
  destruct (token_request_needs_both_fields
              (TokenRequest.mk (Some "nobody") None) two_reviews
              (or_intror eq_refl)) as [errors [H [_ [_ K]]]].
  exists errors. split; [exact H | apply K; reflexivity].
Defined.

(** ** What registration keeps and what it adds *)

Lemma existsb_false_all {A} (p : A -> bool) (l : list A) :
  existsb p l = false -> forall x, In x l -> p x = false.
Proof.
  intros H x Hx. destruct (p x) eqn:E; [| reflexivity].
  rewrite <- H. symmetry. apply existsb_exists. exists x. split; assumption.
Qed.

(** What validated attributes are known to satisfy. *)
Lemma is_valid_sound (EmailValidator : string -> bool) (rows : list User.t)
    (d : RegisterRequest.t) (attrs : RegisterSerializer.ValidatedData) :
  RegisterSerializer.is_valid EmailValidator rows d = Ok attrs ->
  exists name mail,
    RegisterRequest.username d = Some name
    /\ RegisterRequest.email d = Some mail
    /\ RegisterSerializer.username attrs = strip name
    /\ RegisterSerializer.email attrs = strip mail
    /\ accepted name /\ accepted mail
    /\ EmailValidator (RegisterSerializer.email attrs) = true
    /\ (String.length (RegisterSerializer.username attrs) <= 25)%nat
    /\ (String.length (RegisterSerializer.email attrs) <= 254)%nat
    /\ RegisterSerializer.username attrs <> "me"
    /\ (forall u, In u rows ->
                  User.username u <> RegisterSerializer.username attrs
                  /\ User.email u <> RegisterSerializer.email attrs).
Proof.
  unfold RegisterSerializer.is_valid.
  destruct d as [[name|] [mail|]];
    cbn [RegisterRequest.email RegisterRequest.username].
  - destruct (RegisterSerializer.email_codes EmailValidator rows (Some mail))
      as [|c cs] eqn:Em; [| intros F; discriminate F].
    destruct (RegisterSerializer.username_codes rows (Some name))
      as [|c cs] eqn:En; [| intros F; discriminate F].
    apply email_codes_nil in Em. destruct Em as [Am [Fm [Lm Vm]]].
    apply username_codes_nil in En. destruct En as [An [Fn [Ln Mn]]].
    cbn [field_errors map app].
    destruct (RegisterSerializer.unique_together _ _);
      [| intros F; discriminate F].
    intros E. injection E as <-.
    cbn [RegisterSerializer.email RegisterSerializer.username].
    exists name, mail.
    do 4 (split; [reflexivity |]).
    split; [exact An |]. split; [exact Am |]. split; [exact Vm |].
    split; [apply Nat.ltb_ge, Ln |]. split; [apply Nat.ltb_ge, Lm |].
    split; [exact Mn |].
    intros u Hu. split; apply String.eqb_neq.
    + exact (existsb_false_all _ _ Fn u Hu).
    + exact (existsb_false_all _ _ Fm u Hu).
  - cbn [RegisterSerializer.email_codes].
    destruct (RegisterSerializer.username_codes rows (Some name));
      intros F; discriminate F.
  - destruct (RegisterSerializer.email_codes EmailValidator rows (Some mail));
      intros F; discriminate F.
  - intros F. discriminate F.
Qed.

Section RegistrationCases.
Variable EmailValidator : string -> bool.

Lemma fall_through_cases (d : RegisterRequest.t) (w : World) (e : exn) :
  RegisterViewSet.resend d w = (Raise e, w) ->
  is_Exception e = true ->
  ends_unchanged EmailValidator d w \/ ends_created EmailValidator d w.
Proof.
  intros R Ex.
  pose proof (create_falls_through EmailValidator d w e R Ex) as C.
  destruct (RegisterSerializer.is_valid EmailValidator (db_users w) d)
    as [attrs | e'] eqn:V.
  - right. exists attrs. split; [exact V |]. intros new w1. rewrite C.
    rewrite (validate_and_create_valid EmailValidator d w attrs V).
    destruct (smtp_up w); [right | left]; reflexivity.
  - left. exists e'. rewrite C.
    exact (validate_and_create_invalid EmailValidator d w e' V).
Qed.

Lemma register_cases (d : RegisterRequest.t) (w : World) :
  ends_unchanged EmailValidator d w \/ ends_resent EmailValidator d w \/ ends_created EmailValidator d w.
Proof.
  assert (F : forall e, RegisterViewSet.resend d w = (Raise e, w) ->
                        is_Exception e = true ->
                        ends_unchanged EmailValidator d w \/ ends_resent EmailValidator d w \/ ends_created EmailValidator d w).
  { intros e R Ex. destruct (fall_through_cases d w e R Ex); auto. }
  destruct (RegisterRequest.username d) as [name|] eqn:H1.
  2: { exact (F _ (resend_no_username d w H1) eq_refl). }
  destruct (RegisterRequest.email d) as [mail|] eqn:H2.
  2: { exact (F _ (resend_no_email d w name H1 H2) eq_refl). }
  destruct (exact_matches w name mail) as [|row rest] eqn:H3.
  { exact (F _ (resend_no_match d w name mail H1 H2 H3) eq_refl). }
  pose proof (resend_match d w name mail row rest H1 H2 H3) as R.
  destruct (smtp_up w).
  2: { exact (F _ R eq_refl). }
  right. left. exists row.
  assert (Hin : In row (exact_matches w name mail))
    by (rewrite H3; left; reflexivity).
  unfold exact_matches in Hin. apply filter_In in Hin.
  destruct Hin as [Hin Hb]. apply andb_prop in Hb. destruct Hb as [Hn Hm].
  apply String.eqb_eq in Hn. apply String.eqb_eq in Hm. subst name mail.
  repeat split; try assumption; try reflexivity.
  unfold RegisterViewSet.create, try_except_Exception. cbn [catch Exc_M].
  rewrite R. reflexivity.
Qed.
End RegistrationCases.

Lemma NoDup_snoc {A} (l : list A) (x : A) :
  NoDup l -> ~ In x l -> NoDup (l ++ [x]).
Proof.
  intros Hl Hx. apply NoDup_app.
  - exact Hl.
  - constructor; [intros [] | constructor].
  - intros a Ha [<- | []]. exact (Hx Ha).
Qed.

(** X5: whatever the payload, registration keeps usernames and e-mails unique
    in the user table, removes and rewrites no row, and adds at most one. *)
Theorem registration_keeps_users_unique
    (EmailValidator : string -> bool) (d : RegisterRequest.t) (w : World) :
  unique_usernames w -> unique_emails w ->
  let w' := snd (RegisterViewSet.create EmailValidator d w) in
  unique_usernames w' /\ unique_emails w'
  /\ extends (db_users w) (db_users w')
  /\ (List.length (db_users w') <= S (List.length (db_users w)))%nat.
Proof.
  intros Hn Hm w'. subst w'.
  assert (Same : forall w', db_users w' = db_users w ->
                   unique_usernames w' /\ unique_emails w'
                   /\ extends (db_users w) (db_users w')
                   /\ (List.length (db_users w')
                       <= S (List.length (db_users w)))%nat).
  { intros w' E. unfold unique_usernames, unique_emails, extends. rewrite E.
    repeat split; try assumption; [exists []; symmetry; apply app_nil_r | lia]. }
  destruct (register_cases EmailValidator d w)
    as [[e C] | [[row [_ [_ [_ C]]]] | [attrs [V C]]]].
  - rewrite C. apply Same. reflexivity.
  - rewrite C. apply Same. reflexivity.
  - destruct (is_valid_sound EmailValidator (db_users w) d attrs V)
      as [name [mail [_ [_ [_ [_ [_ [_ [_ [_ [_ [_ Hfree]]]]]]]]]]]].
    assert (New : forall w', db_users w'
                             = (db_users w ++ [new_user w attrs])%list ->
                     unique_usernames w' /\ unique_emails w'
                     /\ extends (db_users w) (db_users w')
                     /\ (List.length (db_users w')
                         <= S (List.length (db_users w)))%nat).
    { intros w' E. unfold unique_usernames, unique_emails, extends. rewrite E.
      rewrite !map_app, length_app. cbn. repeat split.
      - apply NoDup_snoc; [exact Hn |]. intros Hin. apply in_map_iff in Hin.
        destruct Hin as [u [Eu Hu]]. exact (proj1 (Hfree u Hu) Eu).
      - apply NoDup_snoc; [exact Hm |]. intros Hin. apply in_map_iff in Hin.
        destruct Hin as [u [Eu Hu]]. exact (proj2 (Hfree u Hu) Eu).
      - exists [new_user w attrs]. reflexivity.
      - lia. }
    cbv zeta in C. destruct C as [C | C]; rewrite C; apply New; reflexivity.
Qed.

Lemma two_reviews_unique_emails : unique_emails two_reviews.
Proof.
  unfold unique_emails. cbn. repeat constructor; cbn; intuition discriminate.
Defined.

Lemma registration_keeps_users_unique_witness :
  let d := RegisterRequest.mk (Some "dave") (Some "dave@yamdb.ru") in
  unique_usernames (snd (RegisterViewSet.create (fun _ => true) d two_reviews))
  /\ unique_emails (snd (RegisterViewSet.create (fun _ => true) d two_reviews)).
Proof.
  intros d.
  destruct (registration_keeps_users_unique
              (fun _ => true) d two_reviews
              two_reviews_unique_usernames two_reviews_unique_emails)
    as [Hn [Hm _]].
  split; [exact Hn | exact Hm].
Defined.

(** X6: a user that registration adds carries the username and the e-mail
    of the payload, stripped of surrounding whitespace, has a username of
    at most 25 characters other than ["me"] and an e-mail of at most 254
    characters that the validator accepts, and is an ordinary user: the role
    is ["user"] and the superuser flag is off. *)
Theorem registration_adds_only_plain_users
    (EmailValidator : string -> bool) (d : RegisterRequest.t) (w : World)
    (u : User.t) :
  In u (db_users (snd (RegisterViewSet.create EmailValidator d w))) ->
  In u (db_users w)
  \/ ((exists name mail,
          RegisterRequest.username d = Some name
          /\ RegisterRequest.email d = Some mail
          /\ User.username u = strip name /\ User.email u = strip mail)
      /\ User.username u <> "" /\ User.username u <> "me"
      /\ (String.length (User.username u) <= 25)%nat
      /\ (String.length (User.email u) <= 254)%nat
      /\ EmailValidator (User.email u) = true
      /\ User.role u = ROLES.name ROLES.user
      /\ User.is_superuser u = false
      /\ User.confirmation_code u = random w (draws w)).
Proof.
  destruct (register_cases EmailValidator d w)
    as [[e C] | [[row [_ [_ [_ C]]]] | [attrs [V C]]]].
  - rewrite C. intros H. left. exact H.
  - rewrite C. intros H. left. exact H.
  - destruct (is_valid_sound EmailValidator (db_users w) d attrs V)
      as [name [mail [Hu [He [Hsu [Hse [Han [_ [Hv [Hl [Hl' [Hme _]]]]]]]]]]]].
    assert (New : In u (db_users w ++ [new_user w attrs])%list ->
                  In u (db_users w) \/ u = new_user w attrs).
    { intros H. apply in_app_or in H. destruct H as [H | [<- | []]];
        [left; exact H | right; reflexivity]. }
    assert (Hin : In u (db_users (snd (RegisterViewSet.create EmailValidator d w)))
                  -> In u (db_users w) \/ u = new_user w attrs)
      by (cbv zeta in C; destruct C as [C | C]; rewrite C; exact New).
    intros H. destruct (Hin H) as [K | ->]; [left; exact K | right].
    cbn [new_user User.username User.email User.role User.is_superuser
         User.confirmation_code].
    split; [exists name, mail; repeat split; assumption |].
    split; [rewrite Hsu; apply Han |].
    repeat split; assumption || reflexivity.
Qed.

Lemma registration_adds_only_plain_users_witness :
  let d := RegisterRequest.mk (Some " dave ") (Some "dave@yamdb.ru") in
  let dave := User.mk 3 "dave" "dave@yamdb.ru" "" "user"
                      "00000000-0000-4000-8000-000000000000" false in
  In dave (db_users (snd (RegisterViewSet.create (fun _ => true) d two_reviews)))
  /\ (In dave (db_users two_reviews)
      \/ ((exists name mail,
              RegisterRequest.username d = Some name
              /\ RegisterRequest.email d = Some mail
              /\ User.username dave = strip name
              /\ User.email dave = strip mail)
          /\ User.username dave <> "" /\ User.username dave <> "me"
          /\ (String.length (User.username dave) <= 25)%nat
          /\ (String.length (User.email dave) <= 254)%nat
          /\ (fun _ : string => true) (User.email dave) = true
          /\ User.role dave = ROLES.name ROLES.user
          /\ User.is_superuser dave = false
          /\ User.confirmation_code dave
             = random two_reviews (draws two_reviews))).
Proof.
  intros d dave.
  assert (Hd : In dave (db_users (snd (RegisterViewSet.create
                                         (fun _ => true) d two_reviews))))
    by (right; right; left; reflexivity).
  split; [exact Hd |].
  exact (registration_adds_only_plain_users
           (fun _ => true) d two_reviews dave Hd).
Defined.

(** X7: registration sends at most one message, and a message it sends
    carries the confirmation code of a user of the table, goes to the address
    stored with that user and to no other, and that address is the one the
    payload gave, as it was sent or stripped of surrounding whitespace. *)
Theorem codes_go_to_their_owner
    (EmailValidator : string -> bool) (d : RegisterRequest.t) (w : World) :
  let w' := snd (RegisterViewSet.create EmailValidator d w) in
  outbox w' = outbox w
  \/ exists u mail,
       In u (db_users w')
       /\ RegisterRequest.email d = Some mail
       /\ (User.email u = mail \/ User.email u = strip mail)
       /\ outbox w'
          = (outbox w ++ [code_mail (User.confirmation_code u) (User.email u)])%list
       /\ recipient_list (code_mail (User.confirmation_code u) (User.email u))
          = [User.email u].
Proof.
  intros w'. subst w'.
  destruct (register_cases EmailValidator d w)
    as [[e C] | [[row [Hin [_ [He C]]]] | [attrs [V C]]]].
  - rewrite C. left. reflexivity.
  - rewrite C. right. exists row, (User.email row).
    split; [exact Hin |]. split; [exact He |]. split; [left; reflexivity |].
    split; reflexivity.
  - destruct (is_valid_sound EmailValidator (db_users w) d attrs V)
      as [name [mail [_ [He [_ [Hse _]]]]]].
    cbv zeta in C. destruct C as [C | C]; rewrite C.
    + left. reflexivity.
    + right. exists (new_user w attrs), mail.
      split; [cbn; apply in_or_app; right; left; reflexivity |].
      split; [exact He |]. split; [right; exact Hse |].
      split; reflexivity.
Qed.

(** ** From registration to a token *)

Section FirstRegistration.
Variable EmailValidator : string -> bool.
Variables (w : World) (name mail : string).
Hypothesis Hraw : exact_matches w name mail = [].
Hypothesis Hfree :
  forall u, In u (db_users w) ->
            User.username u <> strip name /\ User.email u <> strip mail.
Hypothesis Hname : accepted name.
Hypothesis Haddress : accepted mail.
Hypothesis Hmail : EmailValidator (strip mail) = true.
Hypothesis Hlen : (String.length (strip name) <= 25)%nat.
Hypothesis Hlen' : (String.length (strip mail) <= 254)%nat.
Hypothesis Hme : strip name <> "me".
Hypothesis Hup : smtp_up w = true.

Let d := RegisterRequest.mk (Some name) (Some mail).
Let new :=
  new_user w (RegisterSerializer.Build_ValidatedData (strip mail) (strip name)).
Let w1 :=
  set_outbox
    (fun o => (o ++ [code_mail (random w (draws w)) (strip mail)])%list)
    (set_users (fun rows => (rows ++ [new])%list) (set_draws S w)).





End FirstRegistration.








(** ** Creating and listing reviews *)

Lemma score_codes_empty (s : Z) :
  ReviewSerializer.score_codes (Some s) = [] -> 1 <= s <= 10.
Proof.
  unfold ReviewSerializer.score_codes.
  destruct (Z.ltb_spec s 1); [discriminate |].
  destruct (Z.ltb_spec 10 s); [discriminate |]. lia.
Qed.

Lemma field_errors_nil (field : string) (codes : list string) :
  field_errors field codes = [] -> codes = [].
Proof. destruct codes; [reflexivity | discriminate]. Qed.

Lemma CharField_codes_nil (raw : string) :
  CharField_codes (Some raw) = [] -> accepted raw.
Proof.
  intros H. destruct (accepted_dec raw) as [A | A]; [exact A |].
  destruct (CharField_codes_refused raw A) as [F _]. contradiction.
Qed.

(** A review creation on an existing title either fails and changes nothing,
    or appends the review it answers with. *)
Lemma review_create_outcome (rule : OrObjectRule) (m : string) (author : User.t)
    (title : Title.t) (d : ReviewRequest.t) (w : World) :
  filter (fun t => Title.id t =? Title.id title) (db_titles w) = [title] ->
  let out :=
    ReviewViewSet.create rule (request_of m author) (Title.id title) d w in
  (exists errors, out = (Raise (ValidationError errors), w)
                  /\ (errors = [("non_field_errors", "unique")]
                      \/ errors
                         = (field_errors "text"
                              (ReviewSerializer.text_codes (ReviewRequest.text d))
                            ++ field_errors "score"
                                 (ReviewSerializer.score_codes
                                    (ReviewRequest.score d)))%list
                         /\ errors <> []))
  \/ (exists t s,
         ReviewRequest.text d = Some t /\ ReviewRequest.score d = Some s
         /\ accepted t /\ 1 <= s <= 10
         /\ (forall r, In r (db_reviews w) ->
                       Review.title_id r = Title.id title ->
                       Review.author_id r <> User.id author)
         /\ out = (Ok (Build_Response (new_review w (strip t) s title author) 201),
                   set_reviews
                     (fun rows =>
                        (rows ++ [new_review w (strip t) s title author])%list)
                     w)).
Proof.
  intros Htitle out. subst out. rewrite review_create_run, Htitle.
  cbn [get_object_or_404].
  pose proof (pair_taken w author title) as P.
  destruct (_ ++ _)%list as [|err errs] eqn:E.
  - destruct (ReviewRequest.text d) as [t|]; [| discriminate E].
    destruct (ReviewRequest.score d) as [s|];
      [| apply app_eq_nil in E; destruct E as [_ E]; discriminate E].
    apply app_eq_nil in E. destruct E as [Et Es].
    apply field_errors_nil in Et. apply CharField_codes_nil in Et.
    apply field_errors_nil in Es. apply score_codes_empty in Es.
    destruct (existsb _ (db_reviews w)) eqn:X.
    + left. eexists. split; [reflexivity | left; reflexivity].
    + right. exists t, s.
      do 4 (split; [assumption || reflexivity |]).
      split; [| reflexivity].
      intros r Hin Ht Ha.
      assert (T : false = true) by (apply P; exists r; auto).
      discriminate T.
  - left. exists (err :: errs). split.
    + destruct (ReviewRequest.text d); [destruct (ReviewRequest.score d) |];
        reflexivity.
    + right. split; [reflexivity | discriminate].
Qed.

(** X10: on an existing title, a logged-in caller's review is created if and
    only if the payload has a text the field takes (not blank, free of null
    characters) and a score from 1 to 10 and the caller has no review on the
    title yet; a refused creation changes nothing, and a score outside the
    range is reported as [min_value] below 1 and as [max_value] above 10. *)
Theorem review_is_created_exactly_when_valid
    (rule : OrObjectRule) (m : string) (author : User.t) (title : Title.t)
    (d : ReviewRequest.t) (w : World) :
  filter (fun t => Title.id t =? Title.id title) (db_titles w) = [title] ->
  let out :=
    ReviewViewSet.create rule (request_of m author) (Title.id title) d w in
  ((exists resp, fst out = Ok resp)
   <-> (exists t s, ReviewRequest.text d = Some t /\ accepted t
                    /\ ReviewRequest.score d = Some s /\ 1 <= s <= 10)
       /\ (forall r, In r (db_reviews w) ->
                     Review.title_id r = Title.id title ->
                     Review.author_id r <> User.id author))
  /\ ((forall resp, fst out <> Ok resp) -> snd out = w)
  /\ (forall s, ReviewRequest.score d = Some s -> ~ 1 <= s <= 10 ->
                exists errors,
                  fst out = Raise (ValidationError errors)
                  /\ (In ("score", "min_value") errors <-> s < 1)
                  /\ (In ("score", "max_value") errors <-> 10 < s)).
Proof.
  intros Htitle out.
  pose proof (review_create_outcome rule m author title d w Htitle) as O.
  fold out in O. split; [| split].
  - split.
    + intros [resp Hr].
      destruct O as [[errors [E _]] | [t [s [Ht [Hs [Ha [Hr' [Hf _]]]]]]]].
      * rewrite E in Hr. discriminate Hr.
      * split; [exists t, s; auto | exact Hf].
    + intros [[t [s [Ht [Ha [Hs Hrange]]]]] Hfresh]. subst out.
      rewrite review_create_run, Htitle. cbn [get_object_or_404].
      rewrite Ht, Hs, (score_codes_in_range s Hrange).
      unfold ReviewSerializer.text_codes.
      rewrite (CharField_codes_accepted t Ha).
      cbn [field_errors map app].
      destruct (existsb _ (db_reviews w)) eqn:X.
      * apply (pair_taken w author title) in X.
        destruct X as [r [Hin [Hau Hti]]]. exfalso. exact (Hfresh r Hin Hti Hau).
      * eexists. reflexivity.
  - intros Hno. destruct O as [[errors [E _]] | [t [s [_ [_ [_ [_ [_ E]]]]]]]].
    + rewrite E. reflexivity.
    + exfalso.
      apply (Hno (Build_Response (new_review w (strip t) s title author) 201)).
      rewrite E. reflexivity.
  - intros s Hs Hout. subst out.
    rewrite review_create_run, Htitle. cbn [get_object_or_404]. rewrite Hs.
    set (text_errors :=
           field_errors "text" (ReviewSerializer.text_codes (ReviewRequest.text d))).
    assert (Hmin : In ("score", "min_value")
                      (text_errors
                       ++ field_errors "score"
                            (ReviewSerializer.score_codes (Some s)))%list
                   <-> s < 1).
    { rewrite in_app_iff. unfold ReviewSerializer.score_codes.
      split.
      - intros [K | K]; [apply field_errors_field in K; discriminate K |].
        destruct (Z.ltb_spec s 1); [assumption |].
        destruct (Z.ltb_spec 10 s); cbn in K;
          repeat (destruct K as [K | K]; try discriminate K); contradiction.
      - intros K. right. destruct (Z.ltb_spec s 1); [| lia].
        left. reflexivity. }
    assert (Hmax : In ("score", "max_value")
                      (text_errors
                       ++ field_errors "score"
                            (ReviewSerializer.score_codes (Some s)))%list
                   <-> 10 < s).
    { rewrite in_app_iff. unfold ReviewSerializer.score_codes.
      split.
      - intros [K | K]; [apply field_errors_field in K; discriminate K |].
        destruct (Z.ltb_spec 10 s); [assumption |].
        destruct (Z.ltb_spec s 1); cbn in K;
          repeat (destruct K as [K | K]; try discriminate K); contradiction.
      - intros K. right. destruct (Z.ltb_spec 10 s); [| lia].
        destruct (Z.ltb_spec s 1); [lia |]. left. reflexivity. }
    destruct (text_errors
              ++ field_errors "score" (ReviewSerializer.score_codes (Some s)))%list
      as [|err errs] eqn:E.
    + exfalso. assert (s < 1 \/ 10 < s) as [K | K] by lia;
        [apply Hmin in K | apply Hmax in K]; exact K.
    + exists (err :: errs). split; [| split; assumption].
      destruct (ReviewRequest.text d); reflexivity.
Qed.

Lemma review_is_created_exactly_when_valid_witness :
  exists errors,
    fst (ReviewViewSet.create OrEither (request_of "POST" carol) 1
           (ReviewRequest.mk (Some "eleven") (Some 11)) two_reviews)
    = Raise (ValidationError errors)
    /\ (In ("score", "max_value") errors <-> 10 < 11).
Proof.
  destruct (proj2 (proj2 (review_is_created_exactly_when_valid
                            OrEither "POST" carol solaris
                            (ReviewRequest.mk (Some "eleven") (Some 11))
                            two_reviews eq_refl))
              11 eq_refl) as [errors [H [_ K]]].
  - lia.
  - exists errors. split; [exact H | exact K].
Defined.

(** X11: the order of refusals when a review is posted.  An anonymous caller
    is turned away with [NotAuthenticated] before the title or the payload is
    looked at; for a logged-in caller a title that does not exist gives
    [Http404] whatever the payload holds, even an invalid one.  Neither
    changes anything. *)
Theorem review_post_refusals
    (rule : OrObjectRule) (request : Request) (title_id : Z)
    (d : ReviewRequest.t) (w : World) :
  (user request = AnonymousUser -> is_safe request = false ->
   ReviewViewSet.create rule request title_id d w = (Raise NotAuthenticated, w))
  /\ (is_authenticated (user request) = true ->
      (forall t, In t (db_titles w) -> Title.id t <> title_id) ->
      ReviewViewSet.create rule request title_id d w = (Raise Http404, w)).
Proof.
  split.
  - intros Hu Hs. destruct request as [m u]. cbn in Hu. unfold is_safe in Hs.
    cbn [method] in Hs. subst u.
    unfold ReviewViewSet.create, ReviewViewSet.get_permissions, lift.
    cbn -[in_strings ReviewSerializer.is_valid].
    change (in_strings "create" ["partial_update"; "destroy"]) with false.
    destruct rule;
      cbn -[in_strings ReviewSerializer.is_valid]; rewrite Hs; reflexivity.
  - intros Hu Hno. destruct request as [m [|author]]; [discriminate Hu |].
    change {| method := m; user := Authenticated author |}
      with (request_of m author).
    rewrite review_create_run.
    rewrite (filter_none (fun t => Title.id t =? title_id) (db_titles w));
      [reflexivity |].
    intros t Ht. apply Z.eqb_neq. exact (Hno t Ht).
Qed.

Lemma review_post_refusals_witness :
  ReviewViewSet.create OrEither {| method := "POST"; user := AnonymousUser |} 1
    (ReviewRequest.mk (Some "fine") (Some 5)) two_reviews
  = (Raise NotAuthenticated, two_reviews)
  /\ ReviewViewSet.create OrGuarded (request_of "POST" carol) 99
       (ReviewRequest.mk None (Some 0)) two_reviews
     = (Raise Http404, two_reviews).
Proof.
  split.
  - exact (proj1 (review_post_refusals
                    OrEither {| method := "POST"; user := AnonymousUser |} 1
                    (ReviewRequest.mk (Some "fine") (Some 5)) two_reviews)
             eq_refl eq_refl).
  - refine (proj2 (review_post_refusals
                     OrGuarded (request_of "POST" carol) 99
                     (ReviewRequest.mk None (Some 0)) two_reviews)
              eq_refl _).
    intros t [<- | []]. discriminate.
Defined.

(** What the list of a title's reviews comes to. *)
Lemma get_queryset_run (pk : Z) (w : World) :
  fst (ReviewViewSet.get_queryset pk w)
  = match get_object_or_404
            (filter (fun t => Title.id t =? pk) (db_titles w)) with
    | Ok t0 => Ok (row_order w _
                     (filter (fun r => Review.title_id r =? Title.id t0)
                             (db_reviews w)))
    | Raise e => Raise e
    end.
Proof.
  unfold ReviewViewSet.get_queryset, gets, lift. cbn [bind ret Monad_M].
  destruct (get_object_or_404 _); reflexivity.
Qed.

Lemma two_reviews_faithful_order : faithful_order two_reviews.
Proof. intros A rows. apply Permutation_refl. Defined.

(** X12: with a database that hands out the rows of a query in some order,
    a review that was created is listed under its title together with the
    reviews that were listed there, and the lists of the other titles hold
    the reviews they held. *)
Theorem created_review_is_listed
    (rule : OrObjectRule) (m : string) (author : User.t) (title : Title.t)
    (d : ReviewRequest.t) (w : World) (resp : Response Review.t) :
  faithful_order w ->
  filter (fun t => Title.id t =? Title.id title) (db_titles w) = [title] ->
  fst (ReviewViewSet.create rule (request_of m author) (Title.id title) d w)
  = Ok resp ->
  let w' :=
    snd (ReviewViewSet.create rule (request_of m author) (Title.id title) d w) in
  (exists before after,
      fst (ReviewViewSet.get_queryset (Title.id title) w) = Ok before
      /\ fst (ReviewViewSet.get_queryset (Title.id title) w') = Ok after
      /\ Permutation after (data resp :: before))
  /\ Review.author_id (data resp) = User.id author
  /\ Review.title_id (data resp) = Title.id title
  /\ (forall other, other <> Title.id title ->
                    same_rows (fst (ReviewViewSet.get_queryset other w'))
                              (fst (ReviewViewSet.get_queryset other w))).
Proof.
  intros Horder Htitle Hok w'. subst w'.
  destruct (review_create_outcome rule m author title d w Htitle)
    as [[errors [E _]] | [t [s [_ [_ [_ [_ [_ E]]]]]]]];
    rewrite E in *; cbn [fst snd] in *; [discriminate Hok |].
  injection Hok as <-. cbn [data].
  split; [| split; [reflexivity | split; [reflexivity |]]].
  - do 2 eexists. rewrite !get_queryset_run.
    cbn [db_titles db_reviews row_order set_reviews]. rewrite Htitle.
    cbn [get_object_or_404 get_row]. split; [reflexivity |].
    split; [reflexivity |].
    rewrite filter_app. cbn [filter new_review Review.title_id].
    rewrite Z.eqb_refl.
    eapply Permutation_trans; [apply Horder |].
    eapply Permutation_trans; [apply Permutation_app_comm |].
    cbn [app]. apply perm_skip. apply Permutation_sym, Horder.
  - intros other Hother. rewrite !get_queryset_run.
    cbn [db_titles db_reviews row_order set_reviews].
    destruct (get_object_or_404 _) as [t0 | e] eqn:G; [| reflexivity].
    cbn [same_rows]. rewrite filter_app. cbn [filter new_review Review.title_id].
    assert (T0 : Title.id t0 = other).
    { destruct (filter (fun t1 => Title.id t1 =? other) (db_titles w))
        as [|x [|y l]] eqn:F; try discriminate G.
      injection G as <-.
      assert (Hin : In x (filter (fun t1 => Title.id t1 =? other) (db_titles w)))
        by (rewrite F; left; reflexivity).
      apply filter_In in Hin. apply Z.eqb_eq. exact (proj2 Hin). }
    rewrite T0. destruct (Z.eqb_spec (Title.id title) other) as [X | _];
      [symmetry in X; contradiction |].
    rewrite app_nil_r.
    eapply Permutation_trans; [apply Horder | apply Permutation_sym, Horder].
Qed.

Lemma created_review_is_listed_witness :
  let d := ReviewRequest.mk (Some "again") (Some 10) in
  let w' :=
    snd (ReviewViewSet.create OrEither (request_of "POST" carol) 1 d two_reviews) in
  exists before after,
    fst (ReviewViewSet.get_queryset 1 two_reviews) = Ok before
    /\ fst (ReviewViewSet.get_queryset 1 w') = Ok after
    /\ Permutation after (Review.mk 3 "again" 3 10 102 1 :: before).
Proof.
  intros d w'.
  exact (proj1 (created_review_is_listed
                  OrEither "POST" carol solaris d two_reviews
                  (Build_Response (Review.mk 3 "again" 3 10 102 1) 201)
                  two_reviews_faithful_order eq_refl eq_refl)).
Defined.

(** ** Updating, creating and showing titles *)

Lemma setattrs_twice {GenreItem : Type} (instance : Title.t)
    (d : TitleSerializer.ValidatedData GenreItem) :
  TitleSerializer.setattrs (TitleSerializer.setattrs instance d) d
  = TitleSerializer.setattrs instance d.
Proof.
  unfold TitleSerializer.setattrs. cbn.
  destruct (TitleSerializer.name d), (TitleSerializer.year d),
    (TitleSerializer.description d), (TitleSerializer.category d); reflexivity.
Qed.

Lemma filter_filter_implied {A} (p q : A -> bool) (l : list A) :
  (forall x, p x = true -> q x = true) ->
  filter p (filter q l) = filter p l.
Proof.
  intros H. induction l as [|a l IH]; [reflexivity |]. cbn.
  destruct (q a) eqn:Q; cbn.
  - rewrite IH. reflexivity.
  - destruct (p a) eqn:P; [| exact IH].
    rewrite (H a P) in Q. discriminate Q.
Qed.

Lemma rows_of_others_twice (instance : Title.t) (rows : list GenreTitle.t) :
  rows_of_others instance (rows_of_others instance rows)
  = rows_of_others instance rows.
Proof.
  unfold rows_of_others. apply filter_filter_implied. intros x H. exact H.
Qed.

Lemma saved_twice (instance : Title.t) (rows : list Title.t) :
  saved instance (saved instance rows) = saved instance rows.
Proof.
  assert (M : forall l,
             map (fun t => if Title.id t =? Title.id instance then instance else t)
                 (map (fun t => if Title.id t =? Title.id instance
                                then instance else t) l)
             = map (fun t => if Title.id t =? Title.id instance
                             then instance else t) l).
  { intros l. rewrite map_map. apply map_ext. intros t.
    destruct (Title.id t =? Title.id instance) eqn:E;
      [rewrite Z.eqb_refl | rewrite E]; reflexivity. }
  unfold saved.
  destruct (existsb (fun t => Title.id t =? Title.id instance) rows) eqn:E.
  - assert (E' : existsb (fun t => Title.id t =? Title.id instance)
                         (map (fun t => if Title.id t =? Title.id instance
                                        then instance else t) rows) = true).
    { apply existsb_exists in E. destruct E as [t [Hin Ht]].
      apply existsb_exists. exists instance. split; [| apply Z.eqb_refl].
      apply in_map_iff. exists t. rewrite Ht. split; [reflexivity | exact Hin]. }
    rewrite E'. apply M.
  - rewrite existsb_app. cbn. rewrite Z.eqb_refl, orb_true_r.
    rewrite map_app. cbn. rewrite Z.eqb_refl. f_equal.
    rewrite <- (map_id rows) at 2. apply map_ext_in. intros t Hin.
    rewrite (existsb_false_all _ _ E t Hin). reflexivity.
Qed.

(** X13: repeating a title update changes nothing further.  After an update
    that succeeded, the same payload applied to the title it returned
    returns that title again and leaves the world as the first update left
    it; after one that failed, the same payload applied to the title fails
    in the same way and leaves the world as the first attempt left it. *)
Theorem title_update_is_idempotent
    (instance : Title.t) (d : TitleSerializer.ValidatedData Genre.t)
    (w : World) :
  let update := TitleSerializer.update TitleSerializer.Genre_objects_get in
  (forall updated w',
      update instance d w = (Ok updated, w') ->
      update updated d w' = (Ok updated, w'))
  /\ (forall e w',
         update instance d w = (Raise e, w') ->
         update instance d w' = (Raise e, w')).
Proof.
  cbv zeta. rewrite update_outcome. split.
  - intros updated w' E. rewrite update_outcome.
    destruct (TitleSerializer.genre d) as [[|g gs]|]; try discriminate E;
      injection E as <- <-; rewrite setattrs_twice; f_equal;
      unfold set_titles, set_genre_titles;
      cbn [db_users db_categories db_genres db_titles db_genre_titles db_reviews
           outbox smtp_up random draws now row_order];
      change (rows_of_others (TitleSerializer.setattrs instance d))
        with (rows_of_others instance);
      rewrite rows_of_others_twice, saved_twice; reflexivity.
  - intros e w' E. rewrite update_outcome.
    destruct (TitleSerializer.genre d) as [[|g gs]|]; try discriminate E.
    injection E as <- <-. f_equal.
    unfold set_genre_titles.
    cbn [db_users db_categories db_genres db_titles db_genre_titles db_reviews
         outbox smtp_up random draws now row_order].
    rewrite rows_of_others_twice. reflexivity.
Qed.

(** X14: with a database that hands out the rows of a query in some order,
    a title is shown without any genre after an update, whatever the
    payload supplied, and every other title is shown with the genres it
    had. *)
Theorem updated_title_is_shown_without_genres
    (instance : Title.t) (d : TitleSerializer.ValidatedData Genre.t)
    (w : World) :
  faithful_order w ->
  let w' := snd (TitleSerializer.update TitleSerializer.Genre_objects_get
                   instance d w) in
  ReadOnlyTitleSerializer.genre_field w' (TitleSerializer.setattrs instance d)
  = []
  /\ (forall other, Title.id other <> Title.id instance ->
                    Permutation (ReadOnlyTitleSerializer.genre_field w' other)
                                (ReadOnlyTitleSerializer.genre_field w other)).
Proof.
  intros Horder w'.
  assert (W : db_genre_titles w' = rows_of_others instance (db_genre_titles w)
              /\ db_genres w' = db_genres w /\ row_order w' = row_order w).
  { subst w'. rewrite update_outcome.
    destruct (TitleSerializer.genre d) as [[|g gs]|]; repeat split. }
  destruct W as [Wr [Wg Wo]].
  unfold ReadOnlyTitleSerializer.genre_field. rewrite Wr, Wg, Wo. split.
  - change (Title.id (TitleSerializer.setattrs instance d))
      with (Title.id instance).
    unfold rows_of_others.
    rewrite (filter_none _ (filter _ (db_genre_titles w))).
    + cbn [flat_map].
      rewrite (Permutation_nil (Permutation_sym (Horder _ []))). reflexivity.
    + intros gt Hin. apply filter_In in Hin. destruct Hin as [_ Hn].
      apply negb_true_iff in Hn. exact Hn.
  - intros other Hother. unfold rows_of_others.
    rewrite filter_filter_implied; [apply Permutation_refl |].
    intros gt E. apply Z.eqb_eq in E. apply negb_true_iff, Z.eqb_neq.
    rewrite E. exact Hother.
Qed.

Lemma updated_title_is_shown_without_genres_witness :
  let d := TitleSerializer.Build_ValidatedData
             (Some "Solaris (1972)") None None None None in
  ReadOnlyTitleSerializer.genre_field two_reviews solaris
  = [{| ns_name := "Drama"; ns_slug := "drama" |}]
  /\ ReadOnlyTitleSerializer.genre_field
       (snd (TitleSerializer.update TitleSerializer.Genre_objects_get
               solaris d two_reviews))
       (TitleSerializer.setattrs solaris d)
     = [].
Proof.
  intros d. split; [reflexivity |].
  exact (proj1 (updated_title_is_shown_without_genres
                  solaris d two_reviews two_reviews_faithful_order)).
Defined.

(** ** The range of a rating *)

Lemma int_mean (scores : list Z) :
  scores <> [] -> 0 <= total scores ->
  int (arithmetic_mean scores)
  = total scores / Z.of_nat (List.length scores).
Proof.
  intros Hne Hpos. unfold arithmetic_mean, int.
  destruct scores as [|s rest]; [contradiction |].
  remember (s :: rest) as l. assert (Hl : (0 < List.length l)%nat)
    by (subst l; cbn; lia).
  destruct (Z.of_nat (List.length l)) as [|p|p] eqn:E; try lia.
  unfold Qdiv, Qmult, Qinv. cbn. rewrite Z.mul_1_r.
  apply Z.quot_div_nonneg; lia.
Qed.

Lemma total_bounds (lo hi : Z) (scores : list Z) :
  Forall (fun s => lo <= s <= hi) scores ->
  lo * Z.of_nat (List.length scores) <= total scores
  <= hi * Z.of_nat (List.length scores).
Proof.
  induction 1 as [|s rest Hs _ IH]; [cbn; lia |].
  change (total (s :: rest)) with (s + total rest).
  change (List.length (s :: rest)) with (S (List.length rest)).
  rewrite Nat2Z.inj_succ. lia.
Qed.

(** X15: a shown rating never leaves the range of the scores behind it: if
    every review of a title scores between [lo] and [hi], with [lo] not
    negative, the title is shown with a rating between [lo] and [hi]; with
    the scores the review serializer admits, between 1 and 10. *)
Theorem rating_stays_in_score_range
    (w : World) (row : AnnotatedTitle.t) (lo hi : Z) :
  In row (TitleViewSet.queryset w) ->
  0 <= lo ->
  scores_of w (AnnotatedTitle.title row) <> [] ->
  Forall (fun s => lo <= s <= hi) (scores_of w (AnnotatedTitle.title row)) ->
  exists r,
    ReadOnlyTitleSerializer.rating
      (ReadOnlyTitleSerializer.to_representation w row) = Some r
    /\ lo <= r <= hi.
Proof.
  intros Hrow Hlo Hne Hall. cbn.
  rewrite (queryset_row w row Hrow).
  set (scores := scores_of w (AnnotatedTitle.title row)) in *.
  rewrite (Avg_nonempty scores Hne). cbn.
  pose proof (total_bounds lo hi scores Hall) as [B1 B2].
  assert (Hn : 0 < Z.of_nat (List.length scores))
    by (destruct scores; [contradiction | cbn; lia]).
  rewrite (int_mean scores Hne) by nia.
  eexists. split; [reflexivity |]. split.
  - apply Z.div_le_lower_bound; lia.
  - apply Z.div_le_upper_bound; lia.
Qed.

Lemma rating_stays_in_score_range_witness :
  exists r,
    ReadOnlyTitleSerializer.rating
      (ReadOnlyTitleSerializer.to_representation two_reviews
         (AnnotatedTitle.mk solaris (Some (arithmetic_mean [7; 8]))))
    = Some r
    /\ 1 <= r <= 10.
Proof.
  refine (rating_stays_in_score_range
            two_reviews (AnnotatedTitle.mk solaris (Some (arithmetic_mean [7; 8])))
            1 10 _ _ _ _).
  - left. reflexivity.
  - lia.
  - discriminate.
  - repeat constructor; cbn; lia.
Defined.

(** ** Listing and retrieving titles *)

Lemma filter_unique_by {A K} (key : A -> K) (p : A -> bool)
    (l : list A) (x : A) :
  NoDup (map key l) -> In x l -> p x = true ->
  (forall y, In y l -> p y = true -> key y = key x) ->
  filter p l = [x].
Proof.
  induction l as [|a l IH]; intros Hnd Hin Hp Hkey; [contradiction |].
  simpl in Hnd. inversion Hnd as [|k ks Hnotin Hnd']; subst.
  destruct Hin as [-> | Hin].
  - simpl. rewrite Hp. f_equal. apply filter_none. intros y Hy.
    destruct (p y) eqn:E; [| reflexivity]. exfalso. apply Hnotin.
    rewrite <- (Hkey y (or_intror Hy) E). apply in_map. exact Hy.
  - simpl. destruct (p a) eqn:E.
    + exfalso. apply Hnotin. rewrite (Hkey a (or_introl eq_refl) E).
      apply in_map. exact Hin.
    + apply IH; try assumption. intros y Hy. apply Hkey. right. exact Hy.
Qed.

Lemma queryset_titles (w : World) :
  map AnnotatedTitle.title (TitleViewSet.queryset w) = db_titles w.
Proof.
  unfold TitleViewSet.queryset. rewrite map_map. cbn. apply map_id.
Qed.

(** X16: with a database that hands out the rows of a query in some
    order, the list shows one entry per title; with unique title keys,
    retrieving a key no title has gives [Http404], and retrieving the key of
    a title answers 200 with the very entry the list shows for it.  Neither
    changes anything. *)
Theorem retrieve_agrees_with_list (w : World) :
  faithful_order w ->
  unique_title_ids w ->
  (exists entries,
      TitleViewSet.list_ w = (Ok (Build_Response entries 200), w)
      /\ Permutation (map ReadOnlyTitleSerializer.id entries)
                     (map Title.id (db_titles w))
      /\ forall t,
           In t (db_titles w) ->
           exists entry,
             In entry entries
             /\ ReadOnlyTitleSerializer.id entry = Title.id t
             /\ ReadOnlyTitleSerializer.name entry = Title.name t
             /\ TitleViewSet.retrieve (Title.id t) w
                = (Ok (Build_Response entry 200), w))
  /\ (forall pk, (forall t, In t (db_titles w) -> Title.id t <> pk) ->
                 TitleViewSet.retrieve pk w = (Raise Http404, w)).
Proof.
  intros Horder Hnd. split.
  - eexists. split; [reflexivity |]. split.
    + rewrite map_map.
      cbn [ReadOnlyTitleSerializer.id ReadOnlyTitleSerializer.to_representation].
      rewrite <- (queryset_titles w), map_map.
      apply Permutation_map, Horder.
    + intros t Hin.
      set (row := AnnotatedTitle.mk t (Avg (scores_of w t))).
      assert (Hrow : In row (TitleViewSet.queryset w))
        by (unfold TitleViewSet.queryset; apply in_map_iff; exists t;
            split; [reflexivity | exact Hin]).
      exists (ReadOnlyTitleSerializer.to_representation w row).
      split.
      { apply in_map.
        exact (Permutation_in row (Permutation_sym (Horder _ _)) Hrow). }
      split; [reflexivity |]. split; [reflexivity |].
      unfold TitleViewSet.retrieve.
      rewrite (filter_unique_by
                 (fun r => Title.id (AnnotatedTitle.title r)) _ _ row).
      * reflexivity.
      * rewrite <- map_map, queryset_titles. exact Hnd.
      * exact Hrow.
      * cbn. apply Z.eqb_refl.
      * intros y _ E. apply Z.eqb_eq in E. exact E.
  - intros pk Hno. unfold TitleViewSet.retrieve.
    rewrite filter_none; [reflexivity |].
    intros row Hrow. apply Z.eqb_neq. apply Hno.
    rewrite <- (queryset_titles w). apply in_map. exact Hrow.
Qed.

Lemma two_reviews_unique_title_ids : unique_title_ids two_reviews.
Proof.
  unfold unique_title_ids. cbn. constructor; [intros [] | constructor].
Defined.

Lemma retrieve_agrees_with_list_witness :
  TitleViewSet.retrieve 2 two_reviews = (Raise Http404, two_reviews)
  /\ exists entries,
       TitleViewSet.list_ two_reviews = (Ok (Build_Response entries 200), two_reviews)
       /\ Permutation (map ReadOnlyTitleSerializer.id entries) [1].
Proof.
  destruct (retrieve_agrees_with_list
              two_reviews two_reviews_faithful_order two_reviews_unique_title_ids)
    as [[entries [Hl [Hids _]]] Hmiss].
  split.
  - apply Hmiss. intros t [<- | []]. discriminate.
  - exists entries. split; [exact Hl | exact Hids].
Defined.

(** ** Creating titles *)

Lemma next_pk_above (pks : list Z) : forall pk, In pk pks -> pk < next_pk pks.
Proof.
  unfold next_pk. induction pks as [|a l IH]; intros pk Hin; [contradiction |].
  cbn [fold_right]. destruct Hin as [-> | Hin]; [lia |].
  specialize (IH pk Hin). lia.
Qed.

Lemma create_loop (title : Title.t) (supplied : list Genre.t) :
  forall w : World,
    for_each supplied
      (fun genre => TitleSerializer.create_genre_title genre title) w
    = (Ok tt,
       set_genre_titles
         (fun _ => (db_genre_titles w ++ fresh_rows title supplied)%list) w).
Proof.
  induction supplied as [|g rest IH]; intros w.
  - cbn. unfold set_genre_titles. rewrite app_nil_r. destruct w; reflexivity.
  - cbn [for_each bind Monad_M].
    unfold TitleSerializer.create_genre_title at 1. unfold modify.
    rewrite IH. unfold set_genre_titles. cbn. rewrite <- app_assoc. reflexivity.
Qed.

(** X17: creating a title without the [genre] key raises [KeyError] before
    anything is written.  With the key, the title gets a key no title had,
    takes the supplied fields (name, year, category and description), and is
    appended to the table; one join row per supplied genre is appended, in
    order, the rows of other titles staying; unique title keys stay
    unique. *)
Theorem title_create_adds_title_and_rows
    (Title_defaults : Title.t) (d : TitleSerializer.ValidatedData Genre.t)
    (w : World) :
  (TitleSerializer.genre d = None ->
   TitleSerializer.create Title_defaults d w = (Raise (KeyError "genre"), w))
  /\ (forall supplied,
         TitleSerializer.genre d = Some supplied ->
         exists title w',
           TitleSerializer.create Title_defaults d w = (Ok title, w')
           /\ ~ In (Title.id title) (map Title.id (db_titles w))
           /\ (forall v, TitleSerializer.name d = Some v -> Title.name title = v)
           /\ (forall v, TitleSerializer.year d = Some v -> Title.year title = v)
           /\ (forall c, TitleSerializer.category d = Some c ->
                         Title.category_id title = Some (Category.id c))
           /\ db_titles w' = (db_titles w ++ [title])%list
           /\ db_genre_titles w'
              = (db_genre_titles w ++ fresh_rows title supplied)%list
           /\ (unique_title_ids w -> unique_title_ids w')
           /\ db_genres w' = db_genres w /\ db_reviews w' = db_reviews w
           /\ db_users w' = db_users w
           /\ (forall v, TitleSerializer.description d = Some v ->
                         Title.description title = v)).
Proof.
  split.
  - intros H. unfold TitleSerializer.create. rewrite H. reflexivity.
  - intros supplied H. unfold TitleSerializer.create. rewrite H.
    unfold TitleSerializer.Title_objects_create, gets, modify.
    cbn [bind ret Monad_M].
    set (title := TitleSerializer.setattrs _ d).
    rewrite create_loop. cbn [bind ret Monad_M].
    assert (Hid : Title.id title = next_pk (map Title.id (db_titles w)))
      by reflexivity.
    assert (Hfresh : ~ In (Title.id title) (map Title.id (db_titles w))).
    { intros Hin. apply next_pk_above in Hin. rewrite Hid in Hin. lia. }
    exists title. eexists. split; [reflexivity |].
    split; [exact Hfresh |].
    split; [intros v Hv; subst title; cbn; rewrite Hv; reflexivity |].
    split; [intros v Hv; subst title; cbn; rewrite Hv; reflexivity |].
    split; [intros c Hc; subst title; cbn; rewrite Hc; reflexivity |].
    split; [reflexivity |]. split; [reflexivity |].
    split; [| do 3 (split; [reflexivity |]);
              intros v Hv; subst title; cbn; rewrite Hv; reflexivity].
    unfold unique_title_ids. cbn. rewrite map_app. cbn. intros Hnd.
    apply NoDup_snoc; assumption.
Qed.

Lemma title_create_adds_title_and_rows_witness :
  let d := TitleSerializer.Build_ValidatedData
             (Some "Stalker") (Some 1979) None
             (Some (Category.mk 1 "Film" "film"))
             (Some [Genre.mk 2 "Sci-fi" "scifi"; Genre.mk 1 "Drama" "drama"]) in
  exists title w',
    TitleSerializer.create solaris d two_reviews = (Ok title, w')
    /\ db_genre_titles w'
       = (db_genre_titles two_reviews
          ++ fresh_rows title [Genre.mk 2 "Sci-fi" "scifi";
                               Genre.mk 1 "Drama" "drama"])%list.
Proof.
  intros d.
  destruct (proj2 (title_create_adds_title_and_rows solaris d two_reviews)
              _ eq_refl)
    as [title [w' [H [_ [_ [_ [_ [_ [K _]]]]]]]]].
  exists title, w'. split; [exact H | exact K].
Defined.

(** ** A title update that fails *)

Lemma genre_loop_fails
    (GenreItem : Type)
    (Genre_objects_get : GenreItem -> list Genre.t -> result Genre.t)
    (instance : Title.t) (item : GenreItem) (after : list GenreItem) (e : exn)
    (before : list GenreItem) :
  forall (resolved : list Genre.t) (w : World),
    Forall2 (fun i g => Genre_objects_get i (db_genres w) = Ok g)
            before resolved ->
    Genre_objects_get item (db_genres w) = Raise e ->
    for_each (before ++ item :: after)
             (TitleSerializer.add_genre Genre_objects_get instance) w
    = (Raise e,
       set_genre_titles
         (fun _ => (db_genre_titles w ++ fresh_rows instance resolved)%list) w).
Proof.
  induction before as [|b rest IH]; intros resolved w H He; inversion H; subst.
  - cbn [app for_each bind Monad_M].
    unfold TitleSerializer.add_genre, gets, lift. cbn [bind Monad_M].
    rewrite He. unfold set_genre_titles. cbn. rewrite app_nil_r.
    destruct w; reflexivity.
  - cbn [app for_each bind Monad_M].
    unfold TitleSerializer.add_genre at 1. unfold gets, lift. cbn [bind Monad_M].
    match goal with E : Genre_objects_get b _ = Ok _ |- _ => rewrite E end.
    unfold TitleSerializer.create_genre_title, modify.
    rewrite (IH l'); [| assumption | exact He].
    unfold set_genre_titles. cbn. rewrite <- app_assoc. reflexivity.
Qed.

(** X18: when a supplied genre does not resolve, the update raises the error
    of the first such genre and the title is not saved: its row keeps the old
    field values.  The join rows of the title are by then deleted and
    replaced by the rows of the genres that came before the failing one. *)
Theorem failed_title_update_saves_nothing
    (GenreItem : Type)
    (Genre_objects_get : GenreItem -> list Genre.t -> result Genre.t)
    (instance : Title.t) (d : TitleSerializer.ValidatedData GenreItem)
    (w : World) (before after : list GenreItem) (item : GenreItem)
    (resolved : list Genre.t) (e : exn) :
  TitleSerializer.genre d = Some (before ++ item :: after)%list ->
  Forall2 (fun i g => Genre_objects_get i (db_genres w) = Ok g)
          before resolved ->
  Genre_objects_get item (db_genres w) = Raise e ->
  let w' := snd (TitleSerializer.update Genre_objects_get instance d w) in
  fst (TitleSerializer.update Genre_objects_get instance d w) = Raise e
  /\ db_titles w' = db_titles w
  /\ db_genre_titles w'
     = (rows_of_others instance (db_genre_titles w)
        ++ fresh_rows instance resolved)%list.
Proof.
  intros Hg H He w'. subst w'. unfold TitleSerializer.update. rewrite Hg.
  cbn [bind ret Monad_M TitleSerializer.delete_genre_titles modify].
  set (w1 := set_genre_titles _ w).
  change (db_genres w) with (db_genres w1) in H, He.
  rewrite (genre_loop_fails GenreItem Genre_objects_get _ item after e
                            before resolved w1 H He).
  repeat split.
Qed.

Lemma failed_title_update_saves_nothing_witness :
  let d := TitleSerializer.Build_ValidatedData
             (Some "Solaris (1972)") None None None
             (Some [Genre.mk 2 "Sci-fi" "scifi"]) in
  let update := TitleSerializer.update TitleSerializer.Genre_objects_get in
  fst (update solaris d two_reviews) = Raise TypeError
  /\ db_titles (snd (update solaris d two_reviews)) = [solaris].
Proof.
  intros d update.
  destruct (failed_title_update_saves_nothing
              Genre.t TitleSerializer.Genre_objects_get solaris d two_reviews
              [] [] (Genre.mk 2 "Sci-fi" "scifi") [] TypeError
              eq_refl)
    as [H [K _]].
  - constructor.
  - reflexivity.
  - split; [exact H | exact K].
Defined.

(** ** A new review and the ratings *)

(** X19: a created review carries a score from 1 to 10 and enters the scores
    behind the rating of its own title, after the scores that were there; the
    scores, and with them the rating, of every other title are as before. *)
Theorem new_review_enters_one_rating
    (rule : OrObjectRule) (m : string) (author : User.t) (title : Title.t)
    (d : ReviewRequest.t) (w : World) (resp : Response Review.t) :
  filter (fun t => Title.id t =? Title.id title) (db_titles w) = [title] ->
  fst (ReviewViewSet.create rule (request_of m author) (Title.id title) d w)
  = Ok resp ->
  let w' :=
    snd (ReviewViewSet.create rule (request_of m author) (Title.id title) d w) in
  1 <= Review.score (data resp) <= 10
  /\ ReviewRequest.score d = Some (Review.score (data resp))
  /\ db_titles w' = db_titles w
  /\ scores_of w' title = (scores_of w title ++ [Review.score (data resp)])%list
  /\ (forall other, Title.id other <> Title.id title ->
                    scores_of w' other = scores_of w other
                    /\ Avg (scores_of w' other) = Avg (scores_of w other)).
Proof.
  intros Htitle Hok w'. subst w'.
  destruct (review_create_outcome rule m author title d w Htitle)
    as [[errors [E _]] | [t [s [_ [Hs [_ [Hrange [_ E]]]]]]]];
    rewrite E in *; cbn [fst snd] in *; [discriminate Hok |].
  injection Hok as <-. cbn [data]. unfold scores_of.
  cbn [db_titles db_reviews set_reviews new_review Review.score].
  split; [exact Hrange |]. split; [exact Hs |]. split; [reflexivity |]. split.
  - rewrite filter_app, map_app. cbn. rewrite Z.eqb_refl. reflexivity.
  - intros other Hother. rewrite filter_app. unfold new_review. cbn.
    destruct (Z.eqb_spec (Title.id title) (Title.id other)) as [X | _];
      [symmetry in X; contradiction |].
    rewrite app_nil_r. split; reflexivity.
Qed.

Lemma new_review_enters_one_rating_witness :
  let d := ReviewRequest.mk (Some "again") (Some 10) in
  scores_of
    (snd (ReviewViewSet.create OrEither (request_of "POST" carol) 1 d two_reviews))
    solaris
  = [7; 8; 10].
Proof.
  intros d.
  exact (proj1 (proj2 (proj2 (proj2
           (new_review_enters_one_rating
              OrEither "POST" carol solaris d two_reviews
              (Build_Response (Review.mk 3 "again" 3 10 102 1) 201)
              eq_refl eq_refl))))).
Defined.
